(** * A messaging backend over a document store

    Shallow embedding of [main.py] (the FastAPI handlers) and [schemas.py]
    (the pydantic models), and the properties of its data-access and
    validation layer.

    - Python dictionaries and BSON documents are finite maps from field
      names to values ([gmap string value]).
    - A handler is a function from the database to an outcome and the
      database it leaves behind; an outcome is a JSON body, an
      [HTTPException] raised on purpose, or a Python exception nobody
      catches.
    - What lives outside the two files (the store adapter of [database.py],
      bson's [ObjectId], passlib's [CryptContext], pydantic's [EmailStr]) is
      either written down from the specification, under a comment that says
      so, or taken as a variable of the section. *)

From Stdlib Require Import ZArith NArith String Ascii List Bool Lia.
From Stdlib Require Import Floats.PrimFloat.
From stdpp Require Import gmap strings list fin_maps.

Open Scope string_scope.

(** ** Values *)

(** A store key: twelve bytes ([ObjectId.binary]). *)
Record oid := Oid { binary : list N }.

#[global] Instance oid_eq_dec : EqDecision oid.
Proof. solve_decision. Defined.

(** What a Python [dict] of this program, or a BSON document, holds. *)
#[warnings="-register-all"] Inductive value :=
| VNone
| VBool (b : bool)
| VInt (z : Z)
| VFloat (f : float)
| VStr (s : string)
| VOid (o : oid)
| VDict (d : gmap string value).

Abbreviation dict := (gmap string value).

Definition is_None (v : value) : bool :=
  match v with VNone => true | _ => false end.

(** [d.get(k)]: the value, [None] when the key is missing. *)
Definition get (d : dict) (k : string) : value := default VNone (d !! k).

(** [d.get(k, dflt)]. *)
Definition get_default (d : dict) (k : string) (dflt : value) : value :=
  default dflt (d !! k).

(** An [Optional[str]] as the value [model_dump] gives it. *)
Definition of_opt_str (o : option string) : value :=
  match o with Some s => VStr s | None => VNone end.

(** ** Store keys *)

Definition hex_digit (c : ascii) : option N :=
  let n := N_of_ascii c in
  if (48 <=? n)%N && (n <=? 57)%N then Some (n - 48)%N
  else if (97 <=? n)%N && (n <=? 102)%N then Some (n - 87)%N
  else if (65 <=? n)%N && (n <=? 70)%N then Some (n - 55)%N
  else None.

Definition is_hex (c : ascii) : bool :=
  match hex_digit c with Some _ => true | None => false end.

(** [bytes.fromhex], on a string of hexadecimal digits taken two by two. *)
Fixpoint fromhex (s : string) : option (list N) :=
  match s with
  | EmptyString => Some []
  | String _ EmptyString => None
  | String a (String b rest) =>
      match hex_digit a, hex_digit b, fromhex rest with
      | Some h, Some l, Some bs => Some ((16 * h + l)%N :: bs)
      | _, _, _ => None
      end
  end.

(** Modelled from the spec: bson's [ObjectId(raw)] on a string.  "An
    identifier is valid only if it matches the store's native key format (a
    24-character hexadecimal string in the reference store)"; [None] is the
    constructor raising [InvalidId]. *)
Definition ObjectId (raw : string) : option oid :=
  if Nat.eqb (String.length raw) 24 then
    match fromhex raw with
    | Some bs => Some (Oid bs)
    | None => None
    end
  else None.

(** The same format, said directly: twenty-four characters, each a
    hexadecimal digit. *)
Definition is_store_key (raw : string) : bool :=
  Nat.eqb (String.length raw) 24 && forallb is_hex (list_ascii_of_string raw).

Definition hex_char (n : N) : ascii :=
  if (n <? 10)%N then ascii_of_N (48 + n) else ascii_of_N (87 + n).

(** [str(oid)]: two lower-case digits per byte. *)
Fixpoint hexlify (bs : list N) : string :=
  match bs with
  | [] => EmptyString
  | b :: bs' => String (hex_char (b / 16)) (String (hex_char (b mod 16)) (hexlify bs'))
  end.

Definition str_oid (o : oid) : string := hexlify (binary o).

(** ** The document store *)

(** A stored document: the key the store gave it, and its other fields. *)
Record document := Document { _id : oid; fields : dict }.

(** The document as pymongo hands it back: a dict with its [_id]. *)
Definition as_dict (d : document) : dict := <["_id" := VOid (_id d)]> (fields d).

(** The filters the handlers pass: [{"_id": oid}] and [{field: text}]. *)
Inductive query :=
| ById (o : oid)
| ByField (k : string) (s : string).

Definition matches (q : query) (d : document) : bool :=
  match q with
  | ById o => bool_decide (_id d = o)
  | ByField k s =>
      match fields d !! k with
      | Some (VStr s') => String.eqb s' s
      | _ => false
      end
  end.

(** The database: its collections by name, each in insertion order, and the
    counter the next key is drawn from. *)
Record database := Database {
  collections : gmap string (list document);
  next_key : N
}.

Definition coll (db : database) (name : string) : list document :=
  default [] (collections db !! name).

Definition set_coll (db : database) (name : string) (c : list document) : database :=
  {| collections := <[name := c]> (collections db); next_key := next_key db |}.

Definition empty_db : database := {| collections := ∅; next_key := 0 |}.

(** [db[name].find_one(q)]: the first match, or [None]. *)
Definition find_one (db : database) (name : string) (q : query) : option document :=
  head (filter (fun d => matches q d = true) (coll db name)).

(** [$set]: the given fields replace or extend those of the first match. *)
Fixpoint set_first (q : query) (upd : dict) (c : list document) : list document :=
  match c with
  | [] => []
  | d :: c' =>
      if matches q d then {| _id := _id d; fields := upd ∪ fields d |} :: c'
      else d :: set_first q upd c'
  end.

(** [db[name].update_one(q, {"$set": upd})]. *)
Definition update_one (db : database) (name : string) (q : query) (upd : dict) : database :=
  match collections db !! name with
  | Some c => set_coll db name (set_first q upd c)
  | None => db
  end.

(** The [k] low bytes of [n], most significant first. *)
Fixpoint be_bytes (k : nat) (n : N) : list N :=
  match k with
  | O => []
  | S k' => (be_bytes k' (n / 256) ++ [(n mod 256)%N])%list
  end.

(** Modelled from the spec: [create_document] of [database.py], which is not
    among the sources.  "createDocument(kind, record) -> Identifier:
    persists a validated record, returns its newly assigned identifier"; the
    identifier is "generated by the store on creation". *)
Definition create_document (name : string) (data : dict) (db : database)
  : string * database :=
  let key := Oid (be_bytes 12 (next_key db)) in
  (str_oid key,
   {| collections := <[name := (coll db name ++ [Document key data])%list]> (collections db);
      next_key := N.succ (next_key db) |}).

(** Modelled from the spec: [get_documents] of [database.py], which is not
    among the sources.  "findMany(kind, filter, limit) -> sequence of record:
    returns up to limit matches in store-native order". *)
Definition get_documents (name : string) (q : query) (limit : nat) (db : database)
  : list document :=
  take limit (filter (fun d => matches q d = true) (coll db name)).

(** ** The schemas of [schemas.py] and the payloads of [main.py] *)

(** How pydantic reads one keyword: a required [str], an [Optional[str]]
    that defaults to [None], a [str] with a default.  [None] is a
    [ValidationError]. *)
Definition str_field (v : option value) : option string :=
  match v with
  | Some (VStr s) => Some s
  | _ => None
  end.

Definition opt_str_field (v : option value) : option (option string) :=
  match v with
  | None | Some VNone => Some None
  | Some (VStr s) => Some (Some s)
  | Some _ => None
  end.

Definition str_field_default (dflt : string) (v : option value) : option string :=
  match v with
  | None => Some dflt
  | Some (VStr s) => Some s
  | Some _ => None
  end.

(** A required [float], given as the float the framework parsed. *)
Definition float_field (v : option value) : option float :=
  match v with
  | Some (VFloat f) => Some f
  | _ => None
  end.

Module User.

Record t := make {
  name : string;
  email : string;
  password_hash : string;
  photo_url : option string
}.

Definition model_dump (u : t) : dict :=
  list_to_map [("name", VStr (name u)); ("email", VStr (email u));
               ("password_hash", VStr (password_hash u));
               ("photo_url", of_opt_str (photo_url u))].

(** [User] applied to keywords [kw]; [EmailStr] is the address check, which returns the
    address in its normal form. *)
Definition validate (EmailStr : string -> option string) (kw : dict) : option t :=
  n ← str_field (kw !! "name");
  e ← str_field (kw !! "email") ≫= EmailStr;
  h ← str_field (kw !! "password_hash");
  p ← opt_str_field (kw !! "photo_url");
  Some (make n e h p).

End User.

Module Location.

Record t := make { lat : float; lng : float }.

Definition model_dump (l : t) : dict :=
  list_to_map [("lat", VFloat (lat l)); ("lng", VFloat (lng l))].

Definition validate (kw : dict) : option t :=
  a ← float_field (kw !! "lat");
  b ← float_field (kw !! "lng");
  Some (make a b).

End Location.

Module RequestItem.

Record t := make {
  user_id : string;
  type : string;
  text : option string;
  voice_url : option string;
  photo_url : option string;
  contact_name : option string;
  contact_phone : option string;
  location : option Location.t;
  status : string;
  meta : option dict
}.

(** The labels the description of [type] lists. *)
Definition labels : list string := ["text"; "voice"; "photo"; "contact"; "location"].

(** The default of [status]. *)
Definition default_status : string := "sent".

(** [RequestItem(user_id=..., type=...)] with every other field left to its
    default. *)
Definition init (user_id type : string) : t :=
  make user_id type None None None None None None default_status None.

Definition with_text (x : string) (r : t) : t :=
  make (user_id r) (type r) (Some x) (voice_url r) (photo_url r) (contact_name r)
       (contact_phone r) (location r) (status r) (meta r).

Definition with_voice_url (x : string) (r : t) : t :=
  make (user_id r) (type r) (text r) (Some x) (photo_url r) (contact_name r)
       (contact_phone r) (location r) (status r) (meta r).

Definition with_photo_url (x : string) (r : t) : t :=
  make (user_id r) (type r) (text r) (voice_url r) (Some x) (contact_name r)
       (contact_phone r) (location r) (status r) (meta r).

Definition with_contact (n p : string) (r : t) : t :=
  make (user_id r) (type r) (text r) (voice_url r) (photo_url r) (Some n)
       (Some p) (location r) (status r) (meta r).

Definition with_location (l : Location.t) (r : t) : t :=
  make (user_id r) (type r) (text r) (voice_url r) (photo_url r) (contact_name r)
       (contact_phone r) (Some l) (status r) (meta r).

Definition with_meta (m : dict) (r : t) : t :=
  make (user_id r) (type r) (text r) (voice_url r) (photo_url r) (contact_name r)
       (contact_phone r) (location r) (status r) (Some m).

Definition dump_location (o : option Location.t) : value :=
  match o with Some l => VDict (Location.model_dump l) | None => VNone end.

Definition dump_meta (o : option dict) : value :=
  match o with Some m => VDict m | None => VNone end.

Definition model_dump (r : t) : dict :=
  list_to_map [("user_id", VStr (user_id r)); ("type", VStr (type r));
               ("text", of_opt_str (text r));
               ("voice_url", of_opt_str (voice_url r));
               ("photo_url", of_opt_str (photo_url r));
               ("contact_name", of_opt_str (contact_name r));
               ("contact_phone", of_opt_str (contact_phone r));
               ("location", dump_location (location r));
               ("status", VStr (status r));
               ("meta", dump_meta (meta r))].

Definition location_field (v : option value) : option (option Location.t) :=
  match v with
  | None | Some VNone => Some None
  | Some (VDict d) => Some <$> Location.validate d
  | Some _ => None
  end.

Definition meta_field (v : option value) : option (option dict) :=
  match v with
  | None | Some VNone => Some None
  | Some (VDict d) => Some (Some d)
  | Some _ => None
  end.

(** [RequestItem] applied to keywords [kw]: [user_id] and [type] are required text, [status]
    is text with a default, the rest is optional.  Nothing here looks at
    which text [type] holds. *)
Definition validate (kw : dict) : option t :=
  u ← str_field (kw !! "user_id");
  ty ← str_field (kw !! "type");
  tx ← opt_str_field (kw !! "text");
  vo ← opt_str_field (kw !! "voice_url");
  ph ← opt_str_field (kw !! "photo_url");
  cn ← opt_str_field (kw !! "contact_name");
  cp ← opt_str_field (kw !! "contact_phone");
  lo ← location_field (kw !! "location");
  st ← str_field_default default_status (kw !! "status");
  me ← meta_field (kw !! "meta");
  Some (make u ty tx vo ph cn cp lo st me).

End RequestItem.

Module SignupPayload.

Record t := make { name : string; email : string; password : string }.

Definition validate (EmailStr : string -> option string) (body : dict) : option t :=
  n ← str_field (body !! "name");
  e ← str_field (body !! "email") ≫= EmailStr;
  p ← str_field (body !! "password");
  Some (make n e p).

End SignupPayload.

Module LoginPayload.

Record t := make { email : string; password : string }.

End LoginPayload.

Module ProfileUpdate.

Record t := make { name : option string; photo_url : option string }.

Definition model_dump (p : t) : dict :=
  list_to_map [("name", of_opt_str (name p)); ("photo_url", of_opt_str (photo_url p))].

Definition validate (body : dict) : option t :=
  n ← opt_str_field (body !! "name");
  p ← opt_str_field (body !! "photo_url");
  Some (make n p).

End ProfileUpdate.

(** ** The handlers of [main.py] *)

(** How a call ends: with a body, with an [HTTPException] the handler
    raised, or with a Python exception that nothing catches. *)
Inductive outcome (A : Type) :=
| Ok (body : A)
| HTTPException (status_code : Z) (detail : string)
| Raised (exc : string).

Arguments Ok {A} body.
Arguments HTTPException {A} status_code detail.
Arguments Raised {A} exc.

(** A response body: one JSON object, or a sequence of them. *)
Inductive response :=
| JSON (d : dict)
| JSONList (ds : list dict).

Definition profile_body (user : document) (email : value) : dict :=
  list_to_map [("id", VStr (str_oid (_id user))); ("email", email);
               ("name", get (fields user) "name");
               ("photo_url", get (fields user) "photo_url")].

(** [f"/uploads/{file.filename}"]; a missing file name prints as [None]. *)
Definition upload_path (filename : option string) : string :=
  "/uploads/" +:+ default "None" filename.

(** [d["id"] = str(d.pop("_id"))] on a document the listing got back. *)
Definition pop_id (d : document) : dict :=
  <["id" := VStr (str_oid (_id d))]> (delete "_id" (as_dict d)).

Section Handlers.

(** [pwd_context = CryptContext(schemes=["bcrypt"], deprecated="auto")] is
    passlib's.  [hash] draws a salt, an argument here; [verify] is given the
    password and whatever the document holds, and [None] stands for its
    raising. *)
Variable pwd_context_hash : string -> string -> string.
Variable pwd_context_verify : string -> value -> option bool.

(** [POST /auth/signup].  A document found is a non-empty dict, hence true.
    The fields of the payload are validated text already, so building the
    [User] from them does not fail. *)
Definition signup (payload : SignupPayload.t) (salt : string) (db : database)
  : outcome dict * database :=
  match find_one db "user" (ByField "email" (SignupPayload.email payload)) with
  | Some _ => (HTTPException 400 "Email already registered", db)
  | None =>
      let hashed := pwd_context_hash salt (SignupPayload.password payload) in
      let user := User.make (SignupPayload.name payload) (SignupPayload.email payload)
                            hashed None in
      let '(user_id, db') := create_document "user" (User.model_dump user) db in
      (Ok (list_to_map [("id", VStr user_id);
                        ("email", VStr (SignupPayload.email payload));
                        ("name", VStr (SignupPayload.name payload))]), db')
  end.

(** [POST /auth/login].  The fields read are other than [_id], so they are
    read from [fields]. *)
Definition login (payload : LoginPayload.t) (db : database) : outcome dict * database :=
  match find_one db "user" (ByField "email" (LoginPayload.email payload)) with
  | None => (HTTPException 400 "Invalid credentials", db)
  | Some user =>
      match pwd_context_verify (LoginPayload.password payload)
                               (get_default (fields user) "password_hash" (VStr "")) with
      | None => (Raised "CryptContext.verify", db)
      | Some false => (HTTPException 400 "Invalid credentials", db)
      | Some true =>
          match fields user !! "email" with
          | None => (Raised "KeyError", db)
          | Some e =>
              (Ok (list_to_map [("id", VStr (str_oid (_id user))); ("email", e);
                                ("name", get (fields user) "name")]), db)
          end
      end
  end.

(** [GET /profile/{user_id}]. *)
Definition get_profile (user_id : string) (db : database) : outcome dict * database :=
  match ObjectId user_id with
  | None => (HTTPException 400 "Invalid user id", db)
  | Some o =>
      match find_one db "user" (ById o) with
      | None => (HTTPException 404 "User not found", db)
      | Some user =>
          match fields user !! "email" with
          | None => (Raised "KeyError", db)
          | Some e => (Ok (profile_body user e), db)
          end
      end
  end.

(** [PUT /profile/{user_id}].  After a write that matched nothing,
    [user] is [None] and [user["_id"]] is a [TypeError]. *)
Definition update_profile (user_id : string) (payload : ProfileUpdate.t) (db : database)
  : outcome dict * database :=
  match ObjectId user_id with
  | None => (HTTPException 400 "Invalid user id", db)
  | Some o =>
      let update : dict :=
        filter (fun kv : string * value => is_None kv.2 = false)
               (ProfileUpdate.model_dump payload) in
      if decide (update = ∅) then (Ok {["updated" := VBool false]}, db)
      else
        let db' := update_one db "user" (ById o) update in
        match find_one db' "user" (ById o) with
        | None => (Raised "TypeError", db')
        | Some user =>
            match fields user !! "email" with
            | None => (Raised "KeyError", db')
            | Some e => (Ok (profile_body user e), db')
            end
        end
  end.

(** The body of the five submissions: the new key and the fixed ["ok"]. *)
Definition submitted (req_id : string) (extra : list (string * value)) : dict :=
  list_to_map (("id", VStr req_id) :: ("status", VStr "ok") :: extra).

(** [POST /request/text]. *)
Definition send_text (user_id text : string) (db : database) : outcome dict * database :=
  let item := RequestItem.with_text text (RequestItem.init user_id "text") in
  let '(req_id, db') := create_document "requestitem" (RequestItem.model_dump item) db in
  (Ok (submitted req_id []), db').

(** [POST /request/contact]. *)
Definition send_contact (user_id contact_name contact_phone : string) (db : database)
  : outcome dict * database :=
  let item := RequestItem.with_contact contact_name contact_phone
                (RequestItem.init user_id "contact") in
  let '(req_id, db') := create_document "requestitem" (RequestItem.model_dump item) db in
  (Ok (submitted req_id []), db').

(** [POST /request/location]. *)
Definition send_location (user_id : string) (lat lng : float) (db : database)
  : outcome dict * database :=
  let loc := Location.make lat lng in
  let item := RequestItem.with_location loc (RequestItem.init user_id "location") in
  let '(req_id, db') := create_document "requestitem" (RequestItem.model_dump item) db in
  (Ok (submitted req_id []), db').

(** [POST /request/photo]: the upload is measured, not kept. *)
Definition send_photo (user_id : string) (filename : option string)
  (content : list Byte.byte) (db : database) : outcome dict * database :=
  let photo_url := upload_path filename in
  let item := RequestItem.with_meta {["size" := VInt (Z.of_nat (length content))]}
                (RequestItem.with_photo_url photo_url (RequestItem.init user_id "photo")) in
  let '(req_id, db') := create_document "requestitem" (RequestItem.model_dump item) db in
  (Ok (submitted req_id [("photo_url", VStr photo_url)]), db').

(** [POST /request/voice]. *)
Definition send_voice (user_id : string) (filename : option string)
  (content : list Byte.byte) (db : database) : outcome dict * database :=
  let voice_url := upload_path filename in
  let item := RequestItem.with_meta {["size" := VInt (Z.of_nat (length content))]}
                (RequestItem.with_voice_url voice_url (RequestItem.init user_id "voice")) in
  let '(req_id, db') := create_document "requestitem" (RequestItem.model_dump item) db in
  (Ok (submitted req_id [("voice_url", VStr voice_url)]), db').

(** [GET /requests/{user_id}]. *)
Definition list_requests (user_id : string) (db : database)
  : outcome (list dict) * database :=
  let docs := get_documents "requestitem" (ByField "user_id" user_id) 100 db in
  (Ok (pop_id <$> docs), db).

(** ** The service as a transition system *)

(** A call of the API that reads or writes documents, with what the
    framework has parsed for the handler and, for a signup, the salt the
    hasher draws.  The routes [/], [/schema] and [/test] touch no document
    and are left out. *)
Inductive request :=
| Signup (payload : SignupPayload.t) (salt : string)
| Login (payload : LoginPayload.t)
| GetProfile (user_id : string)
| PutProfile (user_id : string) (payload : ProfileUpdate.t)
| SendText (user_id text : string)
| SendContact (user_id contact_name contact_phone : string)
| SendLocation (user_id : string) (lat lng : float)
| SendPhoto (user_id : string) (filename : option string) (content : list Byte.byte)
| SendVoice (user_id : string) (filename : option string) (content : list Byte.byte)
| ListRequests (user_id : string).

Definition lift {A} (f : A -> response) (r : outcome A * database)
  : outcome response * database :=
  match r with
  | (Ok a, db) => (Ok (f a), db)
  | (HTTPException c d, db) => (HTTPException c d, db)
  | (Raised e, db) => (Raised e, db)
  end.

Definition handle (r : request) (db : database) : outcome response * database :=
  match r with
  | Signup p salt => lift JSON (signup p salt db)
  | Login p => lift JSON (login p db)
  | GetProfile u => lift JSON (get_profile u db)
  | PutProfile u p => lift JSON (update_profile u p db)
  | SendText u t => lift JSON (send_text u t db)
  | SendContact u n p => lift JSON (send_contact u n p db)
  | SendLocation u a b => lift JSON (send_location u a b db)
  | SendPhoto u f c => lift JSON (send_photo u f c db)
  | SendVoice u f c => lift JSON (send_voice u f c db)
  | ListRequests u => lift JSONList (list_requests u db)
  end.

(** The databases the service can be in when every document came through
    it: empty at first, then whatever a call leaves behind. *)
Inductive reachable : database -> Prop :=
| reachable_empty : reachable empty_db
| reachable_handle r db : reachable db -> reachable (handle r db).2.

End Handlers.

(** ** What goes back to the caller, and what is kept *)

(** The JSON objects a caller receives: the body, the members of a listing,
    the [detail] of an [HTTPException]; an exception nobody caught leaves
    the framework's bare 500. *)
Definition rendered (o : outcome response) : list dict :=
  match o with
  | Ok (JSON d) => [d]
  | Ok (JSONList ds) => ds
  | HTTPException _ detail => [{["detail" := VStr detail]}]
  | Raised _ => []
  end.

(** A value has the field [k] when it is an object with that key, or holds
    such an object at any depth. *)
Inductive has_field (k : string) : value -> Prop :=
| has_field_here d v : d !! k = Some v -> has_field k (VDict d)
| has_field_below d k' v : d !! k' = Some v -> has_field k v -> has_field k (VDict d).

Definition flat (v : value) : bool :=
  match v with VDict _ => false | _ => true end.

(** The five submissions. *)
Definition is_submission (r : request) : bool :=
  match r with
  | SendText _ _ | SendContact _ _ _ | SendLocation _ _ _
  | SendPhoto _ _ _ | SendVoice _ _ _ => true
  | _ => false
  end.

(** The item a submission hands to [create_document]. *)
Definition item_of (r : request) : option RequestItem.t :=
  match r with
  | SendText u t => Some (RequestItem.with_text t (RequestItem.init u "text"))
  | SendContact u n p => Some (RequestItem.with_contact n p (RequestItem.init u "contact"))
  | SendLocation u a b =>
      Some (RequestItem.with_location (Location.make a b) (RequestItem.init u "location"))
  | SendPhoto u f c =>
      Some (RequestItem.with_meta {["size" := VInt (Z.of_nat (length c))]}
              (RequestItem.with_photo_url (upload_path f) (RequestItem.init u "photo")))
  | SendVoice u f c =>
      Some (RequestItem.with_meta {["size" := VInt (Z.of_nat (length c))]}
              (RequestItem.with_voice_url (upload_path f) (RequestItem.init u "voice")))
  | _ => None
  end.

(** What the submissions build: status as defaulted, a listed label, and
    no [meta] or the size of an upload. *)
Definition submitted_item (r : RequestItem.t) : Prop :=
  RequestItem.status r = "sent"
  /\ In (RequestItem.type r) RequestItem.labels
  /\ (RequestItem.meta r = None
      \/ exists n, RequestItem.meta r = Some {["size" := VInt n]}).

Definition submitted_doc (d : document) : Prop :=
  exists r, submitted_item r /\ fields d = RequestItem.model_dump r.

(** Every stored request is the dump of a submitted item. *)
Definition requests_ok (db : database) : Prop :=
  forall d, d ∈ coll db "requestitem" -> submitted_doc d.

(** No field of a stored user is an object. *)
Definition users_ok (db : database) : Prop :=
  forall d, d ∈ coll db "user" ->
  forall k v, fields d !! k = Some v -> flat v = true.

(** ** Why a login fails *)


(** ** A hasher and an address check to run the handlers with *)

(** A stand-in scheme for the examples: the digest is the salt, a dollar
    sign and the password; a digest without a dollar sign, or one that is
    not text, makes [demo_verify] raise. *)
Definition demo_hash (salt secret : string) : string := salt +:+ "$" +:+ secret.

Definition demo_verify (secret : string) (digest : value) : option bool :=
  match digest with
  | VStr s =>
      match index 0 "$" s with
      | Some i => Some (String.eqb (substring (S i) (String.length s - S i) s) secret)
      | None => None
      end
  | _ => None
  end.

(** An address is taken when it has an [@] past its first character. *)
Definition demo_email (s : string) : option string :=
  match index 1 "@" s with
  | Some _ => Some s
  | None => None
  end.

Definition ana : SignupPayload.t := SignupPayload.make "Ana" "ana@x.com" "pw123".

(** The empty service after Ana has signed up. *)
Definition ana_db : database := (signup demo_hash ana "salt" empty_db).2.

Definition ana_doc : document :=
  Document (Oid (be_bytes 12 0))
           (User.model_dump (User.make "Ana" "ana@x.com" "salt$pw123" None)).

(** Ana's key, as the signup answered it. *)
Definition ana_id : string := "000000000000000000000000".

(** The service after Ana has then sent the text "hi". *)
Definition hi_db : database :=
  (handle demo_hash demo_verify (SendText ana_id "hi") ana_db).2.

Definition hi_doc : document :=
  Document (Oid (be_bytes 12 1))
           (RequestItem.model_dump
              (RequestItem.with_text "hi" (RequestItem.init ana_id "text"))).

(** ** Further vocabulary for the properties *)

(** The [update] dict of [update_profile]: the fields of the payload that
    are not [None]. *)
Definition update_fields (p : ProfileUpdate.t) : dict :=
  filter (fun kv : string * value => is_None kv.2 = false) (ProfileUpdate.model_dump p).

(** A stored user with a text [name], [email] and [password_hash]. *)
Definition user_doc_ok (d : document) : Prop :=
  exists n e h,
    fields d !! "name" = Some (VStr n)
    /\ fields d !! "email" = Some (VStr e)
    /\ fields d !! "password_hash" = Some (VStr h).

(** The [email] fields of the stored users, in order. *)
Definition emails (db : database) : list (option value) :=
  (fun d => fields d !! "email") <$> coll db "user".

(** The requests of a user, as the listing's filter selects them. *)
Definition requests_of (user_id : string) (db : database) : list document :=
  filter (fun d => matches (ByField "user_id" user_id) d = true) (coll db "requestitem").

(** Every stored user is well formed and no two share an address. *)
Definition users_wf (db : database) : Prop :=
  Forall user_doc_ok (coll db "user") /\ NoDup (emails db).


(** * Properties *)

(** ** Store keys *)

Lemma fromhex_is_Some (s : string) :
  (is_Some (fromhex s) <->
     Nat.even (String.length s) = true /\ forallb is_hex (list_ascii_of_string s) = true)
  /\ forall a,
      (is_Some (fromhex (String a s)) <->
         Nat.even (S (String.length s)) = true
         /\ forallb is_hex (list_ascii_of_string (String a s)) = true).
Proof.
  induction s as [|b s [IH0 IH1]].
  - split; [|intros a]; cbn.
    + split; eauto.
    + split; [intros [? ?]; discriminate | intros [? _]; discriminate].
  - split; [apply IH1|].
    intros a. cbn [fromhex String.length list_ascii_of_string forallb].
    change (Nat.even (S (S (String.length s)))) with (Nat.even (String.length s)).
    unfold is_hex at 1 2.
    destruct (hex_digit a) as [h|], (hex_digit b) as [l|]; cbn [andb];
      try (split; [intros [? ?]; discriminate | intros [_ ?]; discriminate]).
    rewrite <- IH0. destruct (fromhex s); split; eauto.
Qed.

Lemma length_list_ascii_of_string (s : string) :
  length (list_ascii_of_string s) = String.length s.
Proof. induction s; cbn; congruence. Qed.

(** The constructor accepts exactly the twenty-four digit keys. *)
Lemma ObjectId_is_Some (raw : string) :
  is_Some (ObjectId raw) <-> is_store_key raw = true.
Proof.
  unfold ObjectId, is_store_key.
  destruct (Nat.eqb_spec (String.length raw) 24) as [E|E]; cbn [andb].
  - destruct (fromhex_is_Some raw) as [H _]. rewrite E in H. cbn in H.
    destruct (fromhex raw); split; intros H'.
    + apply (proj1 H); eauto.
    + eauto.
    + destruct H' as [? ?]; discriminate.
    + destruct (proj2 H) as [? ?]; [split; [reflexivity | assumption] | discriminate].
  - split; [intros [? ?]|]; discriminate.
Qed.


(** ** The store *)

Lemma find_one_elem_of (db : database) (name : string) (q : query) (d : document) :
  find_one db name q = Some d -> d ∈ coll db name /\ matches q d = true.
Proof.
  unfold find_one. generalize (coll db name). intros c.
  induction c as [|x c IH]; [discriminate|].
  rewrite filter_cons. destruct (decide (matches q x = true)).
  - cbn. intros [= ->]. split; [left | assumption].
  - intros H. destruct (IH H). split; [right|]; assumption.
Qed.

Lemma find_one_None (db : database) (name : string) (q : query) :
  find_one db name q = None <-> (forall d, d ∈ coll db name -> matches q d = false).
Proof.
  unfold find_one. generalize (coll db name). intros c.
  induction c as [|x c IH].
  - split; [|reflexivity]. intros _ d H. inversion H.
  - rewrite filter_cons. destruct (decide (matches q x = true)) as [E|E].
    + split; [discriminate|]. intros H. rewrite (H x) in E by left. discriminate.
    + rewrite IH. split.
      * intros H d Hd. apply elem_of_cons in Hd as [-> | Hd]; [|eauto].
        destruct (matches q x); congruence.
      * intros H d Hd. apply H. right. assumption.
Qed.

Lemma matches_email (d : document) (e : string) :
  matches (ByField "email" e) d = true <-> fields d !! "email" = Some (VStr e).
Proof.
  cbn. destruct (fields d !! "email") as [[]|]; split; try discriminate.
  - intros H. apply String.eqb_eq in H. congruence.
  - intros [= ->]. apply String.eqb_refl.
Qed.

(** ** Identifiers of the profile routes *)



(** ** Signup *)

(** C2.  When some stored user already has the address of the payload,
    [signup] ends with the 400 "Email already registered" and returns the
    database it was given: no record is created. *)
Theorem signup_duplicate_email (pwd_context_hash : string -> string -> string)
  (payload : SignupPayload.t) (salt : string) (db : database) (d : document) :
  d ∈ coll db "user" ->
  fields d !! "email" = Some (VStr (SignupPayload.email payload)) ->
  signup pwd_context_hash payload salt db
  = (HTTPException 400 "Email already registered", db).
Proof.
  intros Hin He. unfold signup.
  destruct (find_one db "user" (ByField "email" (SignupPayload.email payload))) eqn:E;
    [reflexivity|].
  rewrite find_one_None in E. specialize (E d Hin).
  apply matches_email in He. congruence.
Qed.

Lemma signup_duplicate_email_witness :
  signup demo_hash (SignupPayload.make "Ana Again" "ana@x.com" "other") "pepper" ana_db
  = (HTTPException 400 "Email already registered", ana_db).
Proof.
  apply (signup_duplicate_email demo_hash
           (SignupPayload.make "Ana Again" "ana@x.com" "other") "pepper" ana_db ana_doc).
  - change (coll ana_db "user") with [ana_doc]. left.
  - reflexivity.
Defined.

(** ** Login *)



(** When [verify] raises, nothing in [login] catches it. *)
Lemma login_verify_raises (pwd_context_verify : string -> value -> option bool)
  (payload : LoginPayload.t) (db : database) (user : document) :
  find_one db "user" (ByField "email" (LoginPayload.email payload)) = Some user ->
  pwd_context_verify (LoginPayload.password payload)
    (get_default (fields user) "password_hash" (VStr "")) = None ->
  login pwd_context_verify payload db = (Raised "CryptContext.verify", db).
Proof. intros E V. unfold login. rewrite E, V. reflexivity. Qed.

(** A document without a [password_hash] has the empty text verified. *)
Lemma login_missing_hash (user : document) :
  fields user !! "password_hash" = None ->
  get_default (fields user) "password_hash" (VStr "") = VStr "".
Proof. intros H. unfold get_default. rewrite H. reflexivity. Qed.



(** ** Profile update *)

Lemma ProfileUpdate_validate_null (body : dict) :
  (forall k v, body !! k = Some v -> v = VNone) ->
  ProfileUpdate.validate body = Some (ProfileUpdate.make None None).
Proof.
  intros H. unfold ProfileUpdate.validate.
  destruct (body !! "name") as [v|] eqn:En; [rewrite (H _ _ En)|];
    (destruct (body !! "photo_url") as [w|] eqn:Ep; [rewrite (H _ _ Ep)|]); reflexivity.
Qed.

Lemma update_of_nothing :
  filter (fun kv : string * value => is_None kv.2 = false)
         (ProfileUpdate.model_dump (ProfileUpdate.make None None)) = (∅ : dict).
Proof. reflexivity. Qed.

(** C6.  For a well-formed identifier and a body in which every field that
    is present is null (the empty body among them), validation accepts the
    body, [update_profile] answers [{updated: false}], and the database it
    returns is the one it was given: nothing is written. *)
Theorem update_profile_nothing_to_set (user_id : string) (body : dict) (db : database) :
  is_store_key user_id = true ->
  (forall k v, body !! k = Some v -> v = VNone) ->
  exists payload,
    ProfileUpdate.validate body = Some payload
    /\ update_profile user_id payload db = (Ok {["updated" := VBool false]}, db).
Proof.
  intros Hk Hb. exists (ProfileUpdate.make None None).
  split; [apply ProfileUpdate_validate_null; assumption|].
  apply ObjectId_is_Some in Hk as [o Ho].
  unfold update_profile. rewrite Ho, update_of_nothing.
  destruct (decide ((∅ : dict) = ∅)) as [_|n]; [reflexivity | destruct n; reflexivity].
Qed.

Lemma update_profile_nothing_to_set_witness :
  exists payload,
    ProfileUpdate.validate ∅ = Some payload
    /\ update_profile "000000000000000000000000" payload ana_db
       = (Ok {["updated" := VBool false]}, ana_db).
Proof.
  apply (update_profile_nothing_to_set "000000000000000000000000" ∅ ana_db).
  - reflexivity.
  - intros k v H. rewrite lookup_empty in H. discriminate.
Defined.

(** ** Listing *)

(** C10.  [GET /requests/{user_id}] answers with the first hundred stored
    requests of the user, or with all of them when there are fewer: never
    more than one hundred records, and exactly one hundred once the user
    has that many.  The database is returned as it was. *)
Theorem list_requests_cap (user_id : string) (db : database) :
  exists docs,
    list_requests user_id db = (Ok docs, db)
    /\ length docs
       = Nat.min 100 (length (filter (fun d => matches (ByField "user_id" user_id) d = true)
                                     (coll db "requestitem")))
    /\ length docs <= 100.
Proof.
  eexists. split; [reflexivity|].
  unfold get_documents. rewrite length_fmap, length_take.
  split; [reflexivity | lia].
Qed.

(** ** What a call does to the collections *)

Lemma coll_create_document_same (name : string) (data : dict) (db : database) :
  coll (create_document name data db).2 name
  = (coll db name ++ [Document (Oid (be_bytes 12 (next_key db))) data])%list.
Proof. unfold coll, create_document. cbn. rewrite lookup_insert_eq. reflexivity. Qed.

Lemma coll_create_document_other (name name' : string) (data : dict) (db : database) :
  name <> name' -> coll (create_document name data db).2 name' = coll db name'.
Proof. intros H. unfold coll, create_document. cbn. rewrite lookup_insert_ne by assumption. reflexivity. Qed.

Lemma coll_update_one_same (name : string) (q : query) (upd : dict) (db : database) :
  coll (update_one db name q upd) name = set_first q upd (coll db name).
Proof.
  unfold update_one, coll. destruct (collections db !! name) eqn:E; cbn.
  - rewrite lookup_insert_eq. reflexivity.
  - rewrite E. reflexivity.
Qed.

Lemma coll_update_one_other (name name' : string) (q : query) (upd : dict) (db : database) :
  name <> name' -> coll (update_one db name q upd) name' = coll db name'.
Proof.
  intros H. unfold update_one, coll. destruct (collections db !! name); cbn; [|reflexivity].
  rewrite lookup_insert_ne by assumption. reflexivity.
Qed.

Lemma signup_db (h : string -> string -> string) (p : SignupPayload.t) (salt : string)
  (db : database) :
  (signup h p salt db).2 = db
  \/ (signup h p salt db).2
     = (create_document "user"
          (User.model_dump (User.make (SignupPayload.name p) (SignupPayload.email p)
                                      (h salt (SignupPayload.password p)) None)) db).2.
Proof.
  unfold signup. destruct (find_one _ _ _); [left | right]; reflexivity.
Qed.

Lemma login_db (v : string -> value -> option bool) (p : LoginPayload.t) (db : database) :
  (login v p db).2 = db.
Proof.
  unfold login. destruct (find_one _ _ _); [|reflexivity].
  destruct (v _ _) as [[]|]; try reflexivity.
  destruct (_ !! _); reflexivity.
Qed.

Lemma get_profile_db (user_id : string) (db : database) : (get_profile user_id db).2 = db.
Proof.
  unfold get_profile. destruct (ObjectId _); [|reflexivity].
  destruct (find_one _ _ _); [|reflexivity].
  destruct (_ !! _); reflexivity.
Qed.

Lemma update_profile_db (user_id : string) (p : ProfileUpdate.t) (db : database) :
  (update_profile user_id p db).2 = db
  \/ exists o,
      (update_profile user_id p db).2
      = update_one db "user" (ById o)
          (filter (fun kv : string * value => is_None kv.2 = false)
                  (ProfileUpdate.model_dump p)).
Proof.
  unfold update_profile. destruct (ObjectId _) as [o|]; [|left; reflexivity].
  destruct (decide _); [left; reflexivity|]. right. exists o.
  destruct (find_one _ _ _); [|reflexivity].
  destruct (_ !! _); reflexivity.
Qed.

Lemma lift_db {A} (f : A -> response) (r : outcome A * database) : (lift f r).2 = r.2.
Proof. destruct r as [[]]; reflexivity. Qed.

Lemma item_of_is_submission (r : request) : is_submission r = true <-> is_Some (item_of r).
Proof. destruct r; cbn; split; intros H; eauto; try discriminate; destruct H; discriminate. Qed.

Lemma item_of_submitted (r : request) (item : RequestItem.t) :
  item_of r = Some item -> submitted_item item.
Proof.
  destruct r; cbn; intros [= <-]; unfold submitted_item; cbn;
    (split; [reflexivity | split; [tauto | eauto]]).
Qed.

(** A submission stores the dump of its item under a new key and answers
    with that key and ["ok"]. *)
Lemma handle_submission (h : string -> string -> string) (v : string -> value -> option bool)
  (r : request) (item : RequestItem.t) (db : database) :
  item_of r = Some item ->
  exists body,
    handle h v r db
    = (Ok (JSON body),
       (create_document "requestitem" (RequestItem.model_dump item) db).2)
    /\ body !! "status" = Some (VStr "ok")
    /\ body !! "id" = Some (VStr (str_oid (Oid (be_bytes 12 (next_key db))))).
Proof.
  destruct r; cbn [item_of]; intros [= <-]; eexists; (split; [reflexivity|]);
    split; reflexivity.
Qed.

(** Every other call leaves the stored requests as they are. *)
Lemma handle_not_submission (h : string -> string -> string)
  (v : string -> value -> option bool) (r : request) (db : database) :
  item_of r = None ->
  coll (handle h v r db).2 "requestitem" = coll db "requestitem".
Proof.
  destruct r; cbn [item_of handle]; intros H; try discriminate; rewrite lift_db.
  - destruct (signup_db h payload salt db) as [-> | ->]; [reflexivity|].
    apply coll_create_document_other. discriminate.
  - rewrite login_db. reflexivity.
  - rewrite get_profile_db. reflexivity.
  - destruct (update_profile_db user_id payload db) as [-> | [o ->]]; [reflexivity|].
    apply coll_update_one_other. discriminate.
  - reflexivity.
Qed.

(** What any call does to the stored requests: it keeps them all, in
    order, and adds at most the dump of one submitted item at the end. *)
Lemma handle_requestitem (h : string -> string -> string)
  (v : string -> value -> option bool) (r : request) (db : database) :
  exists new,
    coll (handle h v r db).2 "requestitem" = (coll db "requestitem" ++ new)%list
    /\ Forall submitted_doc new.
Proof.
  destruct (item_of r) as [item|] eqn:E.
  - destruct (handle_submission h v r item db E) as (body & -> & _).
    eexists. split; [apply coll_create_document_same|].
    constructor; [|constructor]. exists item. split; [|reflexivity].
    eapply item_of_submitted; eassumption.
  - exists []. rewrite app_nil_r. split; [|constructor].
    apply handle_not_submission; assumption.
Qed.

Lemma reachable_requests_ok (h : string -> string -> string)
  (v : string -> value -> option bool) (db : database) :
  reachable h v db -> requests_ok db.
Proof.
  induction 1 as [|r db _ IH].
  - intros d Hd. inversion Hd.
  - destruct (handle_requestitem h v r db) as (new & E & Hnew).
    intros d Hd. rewrite E in Hd. apply elem_of_app in Hd as [Hd | Hd]; [eauto|].
    rewrite Forall_forall in Hnew. eauto.
Qed.

Lemma flat_of_opt_str (o : option string) : flat (of_opt_str o) = true.
Proof. destruct o; reflexivity. Qed.

Lemma list_to_map_flat (l : list (string * value)) (k : string) (v : value) :
  Forall (fun kv => flat kv.2 = true) l ->
  (list_to_map l : dict) !! k = Some v -> flat v = true.
Proof.
  intros Hl H. apply elem_of_list_to_map_2 in H.
  rewrite Forall_forall in Hl. apply (Hl (k, v) H).
Qed.

Lemma User_model_dump_flat (u : User.t) (k : string) (v : value) :
  User.model_dump u !! k = Some v -> flat v = true.
Proof.
  apply list_to_map_flat. repeat constructor. apply flat_of_opt_str.
Qed.

Lemma ProfileUpdate_model_dump_flat (p : ProfileUpdate.t) (k : string) (v : value) :
  ProfileUpdate.model_dump p !! k = Some v -> flat v = true.
Proof.
  apply list_to_map_flat. repeat constructor; apply flat_of_opt_str.
Qed.

Lemma set_first_flat (q : query) (upd : dict) (c : list document) :
  (forall k v, upd !! k = Some v -> flat v = true) ->
  (forall d, d ∈ c -> forall k v, fields d !! k = Some v -> flat v = true) ->
  forall d, d ∈ set_first q upd c -> forall k v, fields d !! k = Some v -> flat v = true.
Proof.
  intros Hu. induction c as [|x c IH]; intros Hc d Hd k v Hk; [inversion Hd|].
  cbn in Hd. destruct (matches q x).
  - apply elem_of_cons in Hd as [-> | Hd];
      [|apply (Hc d (list_elem_of_further _ _ _ Hd) k v Hk)].
    cbn in Hk. apply lookup_union_Some_raw in Hk as [Hk | [_ Hk]]; [eauto|].
    apply (Hc x (list_elem_of_here _ _) k v Hk).
  - apply elem_of_cons in Hd as [-> | Hd]; [apply (Hc x (list_elem_of_here _ _) k v Hk)|].
    apply (IH (fun d' H' => Hc d' (list_elem_of_further _ _ _ H')) d Hd k v Hk).
Qed.

Lemma users_ok_update_one (db : database) (o : oid) (p : ProfileUpdate.t) :
  users_ok db ->
  users_ok (update_one db "user" (ById o)
              (filter (fun kv : string * value => is_None kv.2 = false)
                      (ProfileUpdate.model_dump p))).
Proof.
  intros Hdb d Hd. rewrite coll_update_one_same in Hd. revert d Hd.
  apply set_first_flat; [|exact Hdb].
  intros k w Hk. apply map_lookup_filter_Some in Hk as [Hk _].
  apply (ProfileUpdate_model_dump_flat _ _ _ Hk).
Qed.

Lemma handle_users_ok (h : string -> string -> string)
  (v : string -> value -> option bool) (r : request) (db : database) :
  users_ok db -> users_ok (handle h v r db).2.
Proof.
  intros Hdb. destruct (item_of r) as [item|] eqn:E.
  { destruct (handle_submission h v r item db E) as (body & -> & _).
    unfold users_ok. cbn [snd]. rewrite coll_create_document_other by discriminate.
    exact Hdb. }
  destruct r; cbn [item_of handle] in *; try discriminate; rewrite lift_db.
  - destruct (signup_db h payload salt db) as [-> | ->]; [exact Hdb|].
    intros d Hd k w Hk. rewrite coll_create_document_same in Hd.
    apply elem_of_app in Hd as [Hd | Hd]; [apply (Hdb d Hd k w Hk)|].
    apply list_elem_of_singleton in Hd as ->. apply (User_model_dump_flat _ _ _ Hk).
  - rewrite login_db. exact Hdb.
  - rewrite get_profile_db. exact Hdb.
  - destruct (update_profile_db user_id payload db) as [-> | [o ->]]; [exact Hdb|].
    apply users_ok_update_one. exact Hdb.
  - exact Hdb.
Qed.

Lemma reachable_users_ok (h : string -> string -> string)
  (v : string -> value -> option bool) (db : database) :
  reachable h v db -> users_ok db.
Proof.
  induction 1 as [|r db _ IH].
  - intros d Hd. inversion Hd.
  - apply handle_users_ok. assumption.
Qed.

(** ** Fields of the bodies sent back *)

Lemma has_field_flat (k : string) (v : value) : flat v = true -> ~ has_field k v.
Proof. intros F H. destruct H; discriminate. Qed.

Lemma no_field_list_to_map (k : string) (l : list (string * value)) :
  Forall (fun kv => kv.1 <> k /\ ~ has_field k kv.2) l ->
  ~ has_field k (VDict (list_to_map l)).
Proof.
  rewrite Forall_forall. intros Hl H. inversion H as [d v Hk | d k' v Hk Hv]; subst.
  - apply elem_of_list_to_map_2 in Hk. destruct (Hl _ Hk) as [Hne _]. apply Hne. reflexivity.
  - apply elem_of_list_to_map_2 in Hk. destruct (Hl _ Hk) as [_ Hno]. apply Hno. exact Hv.
Qed.

Lemma no_field_empty (k : string) : ~ has_field k (VDict ∅).
Proof.
  intros H. inversion H as [d v Hk | d k' v Hk Hv]; subst;
    rewrite lookup_empty in Hk; discriminate.
Qed.

Lemma no_field_insert (k k' : string) (v : value) (d : dict) :
  k' <> k -> ~ has_field k v -> ~ has_field k (VDict d) ->
  ~ has_field k (VDict (<[k' := v]> d)).
Proof.
  intros Hne Hv Hd H. inversion H as [d' w Hk | d' k'' w Hk Hw]; subst.
  - rewrite lookup_insert_ne in Hk by assumption.
    apply Hd. econstructor 1. eassumption.
  - apply lookup_insert_Some in Hk as [[-> ->] | [_ Hk]]; [auto|].
    apply Hd. econstructor 2; eassumption.
Qed.

Lemma no_field_singleton (k k' : string) (v : value) :
  k' <> k -> ~ has_field k v -> ~ has_field k (VDict {[k' := v]}).
Proof.
  intros Hne Hv. rewrite <- insert_empty.
  apply no_field_insert; [assumption | assumption | apply no_field_empty].
Qed.

Lemma no_field_delete (k k' : string) (d : dict) :
  ~ has_field k (VDict d) -> ~ has_field k (VDict (delete k' d)).
Proof.
  intros Hd H. apply Hd. inversion H as [d' w Hk | d' k'' w Hk Hw]; subst;
    apply lookup_delete_Some in Hk as [_ Hk]; [econstructor 1 | econstructor 2]; eassumption.
Qed.

Lemma get_flat (m : dict) (k : string) :
  (forall k v, m !! k = Some v -> flat v = true) -> flat (get m k) = true.
Proof. intros H. unfold get. destruct (m !! k) eqn:E; cbn; eauto. Qed.

(** Proves that the entries of a literal body neither are nor hold [k]:
    the keys differ from [k] as texts, the values are left to [tac]. *)
Ltac no_field_entries tac :=
  apply no_field_list_to_map;
  repeat (constructor; [split; [discriminate | cbn [snd]; tac] |]);
  try constructor.

Lemma submitted_doc_clean (d : document) :
  submitted_doc d -> ~ has_field "password_hash" (VDict (pop_id d)).
Proof.
  intros (r & (_ & _ & Hm) & E). unfold pop_id, as_dict. rewrite E.
  apply no_field_insert; [discriminate | apply has_field_flat; reflexivity |].
  apply no_field_delete.
  apply no_field_insert; [discriminate | apply has_field_flat; reflexivity |].
  unfold RequestItem.model_dump.
  no_field_entries ltac:(try (apply has_field_flat; first [reflexivity | apply flat_of_opt_str])).
  - destruct (RequestItem.location r) as [l|]; cbn [RequestItem.dump_location];
      [|apply has_field_flat; reflexivity].
    unfold Location.model_dump. no_field_entries ltac:(apply has_field_flat; reflexivity).
  - destruct Hm as [-> | [n ->]]; cbn [RequestItem.dump_meta];
      [apply has_field_flat; reflexivity|].
    apply no_field_singleton; [discriminate | apply has_field_flat; reflexivity].
Qed.

Lemma profile_body_clean (user : document) (e : value) :
  (forall k v, fields user !! k = Some v -> flat v = true) ->
  fields user !! "email" = Some e ->
  ~ has_field "password_hash" (VDict (profile_body user e)).
Proof.
  intros Hu He. unfold profile_body.
  no_field_entries ltac:(apply has_field_flat;
                         first [reflexivity | apply get_flat; assumption | eauto]).
Qed.

Lemma detail_clean (detail : string) :
  ~ has_field "password_hash" (VDict {["detail" := VStr detail]}).
Proof. apply no_field_singleton; [discriminate | apply has_field_flat; reflexivity]. Qed.

Ltac one_body := constructor; [|constructor].

Lemma handle_rendered_clean (h : string -> string -> string)
  (v : string -> value -> option bool) (r : request) (db : database) :
  users_ok db -> requests_ok db ->
  Forall (fun d => ~ has_field "password_hash" (VDict d)) (rendered (handle h v r db).1).
Proof.
  intros Hu Hr. destruct r; cbn [handle].
  - unfold signup. destruct (find_one _ _ _); unfold create_document; cbn [lift rendered fst].
    + one_body. apply detail_clean.
    + one_body. no_field_entries ltac:(apply has_field_flat; reflexivity).
  - unfold login. destruct (find_one _ _ _) as [u|] eqn:E; cbn [lift rendered fst];
      [|one_body; apply detail_clean].
    apply find_one_elem_of in E as [Hin _].
    destruct (v _ _) as [[]|]; cbn [lift rendered fst];
      [|one_body; apply detail_clean|constructor].
    destruct (fields u !! "email") as [e|] eqn:He; cbn [lift rendered fst]; [|constructor].
    one_body.
    no_field_entries ltac:(apply has_field_flat;
      first [reflexivity | apply get_flat; apply (Hu u Hin) | apply (Hu u Hin _ _ He)]).
  - unfold get_profile. destruct (ObjectId _) as [o|]; cbn [lift rendered fst];
      [|one_body; apply detail_clean].
    destruct (find_one _ _ _) as [u|] eqn:E; cbn [lift rendered fst];
      [|one_body; apply detail_clean].
    apply find_one_elem_of in E as [Hin _].
    destruct (fields u !! "email") as [e|] eqn:He; cbn [lift rendered fst]; [|constructor].
    one_body. apply profile_body_clean; [apply (Hu u Hin) | assumption].
  - unfold update_profile. destruct (ObjectId _) as [o|]; cbn [lift rendered fst];
      [|one_body; apply detail_clean].
    destruct (decide _); cbn [lift rendered fst].
    { one_body. apply no_field_singleton; [discriminate | apply has_field_flat; reflexivity]. }
    pose proof (users_ok_update_one db o payload Hu) as Hu'.
    destruct (find_one _ _ _) as [u|] eqn:E; cbn [lift rendered fst]; [|constructor].
    apply find_one_elem_of in E as [Hin _].
    destruct (fields u !! "email") as [e|] eqn:He; cbn [lift rendered fst]; [|constructor].
    one_body. apply profile_body_clean; [apply (Hu' u Hin) | assumption].
  - unfold send_text, create_document, submitted; cbn [lift rendered fst]. one_body.
    no_field_entries ltac:(apply has_field_flat; reflexivity).
  - unfold send_contact, create_document, submitted; cbn [lift rendered fst]. one_body.
    no_field_entries ltac:(apply has_field_flat; reflexivity).
  - unfold send_location, create_document, submitted; cbn [lift rendered fst]. one_body.
    no_field_entries ltac:(apply has_field_flat; reflexivity).
  - unfold send_photo, create_document, submitted; cbn [lift rendered fst]. one_body.
    no_field_entries ltac:(apply has_field_flat; reflexivity).
  - unfold send_voice, create_document, submitted; cbn [lift rendered fst]. one_body.
    no_field_entries ltac:(apply has_field_flat; reflexivity).
  - unfold list_requests, get_documents; cbn [lift rendered fst].
    apply Forall_fmap, Forall_forall. intros d Hd. cbn.
    apply submitted_doc_clean, Hr.
    apply subseteq_take in Hd. apply list_elem_of_filter in Hd as [_ Hd]. exact Hd.
Qed.

Lemma RequestItem_model_dump_status (r : RequestItem.t) :
  RequestItem.model_dump r !! "status" = Some (VStr (RequestItem.status r)).
Proof. reflexivity. Qed.

Lemma RequestItem_model_dump_type (r : RequestItem.t) :
  RequestItem.model_dump r !! "type" = Some (VStr (RequestItem.type r)).
Proof. reflexivity. Qed.

Lemma Location_validate_model_dump (l : Location.t) :
  Location.validate (Location.model_dump l) = Some l.
Proof. destruct l. reflexivity. Qed.

(** Validation takes back what [model_dump] gives. *)
Lemma RequestItem_validate_model_dump (r : RequestItem.t) :
  RequestItem.validate (RequestItem.model_dump r) = Some r.
Proof.
  destruct r as [u ty tx vo ph cn cp lo st me].
  destruct tx, vo, ph, cn, cp, lo as [[]|], me; reflexivity.
Qed.

Lemma ana_db_reachable : reachable demo_hash demo_verify ana_db.
Proof. exact (reachable_handle _ _ (Signup ana "salt") empty_db (reachable_empty _ _)). Qed.

Lemma hi_db_reachable : reachable demo_hash demo_verify hi_db.
Proof. exact (reachable_handle _ _ (SendText ana_id "hi") ana_db ana_db_reachable). Qed.

(** ** The password hash stays in the store *)

(** C7.  In every database the service can reach, whatever the call
    (signup, login, profile read, profile update, a submission, the
    listing) and however it ends, no JSON object sent back has a
    [password_hash] field, at the top or nested in one of its values. *)
Theorem responses_without_password_hash (pwd_context_hash : string -> string -> string)
  (pwd_context_verify : string -> value -> option bool) (r : request) (db : database) :
  reachable pwd_context_hash pwd_context_verify db ->
  Forall (fun d => ~ has_field "password_hash" (VDict d))
         (rendered (handle pwd_context_hash pwd_context_verify r db).1).
Proof.
  intros H. apply handle_rendered_clean.
  - eapply reachable_users_ok. eassumption.
  - eapply reachable_requests_ok. eassumption.
Qed.

Lemma responses_without_password_hash_witness :
  has_field "password_hash" (VDict (as_dict ana_doc))
  /\ (exists body,
        (handle demo_hash demo_verify (Login (LoginPayload.make "ana@x.com" "pw123")) ana_db).1
        = Ok (JSON body))
  /\ Forall (fun d => ~ has_field "password_hash" (VDict d))
       (rendered
          (handle demo_hash demo_verify (Login (LoginPayload.make "ana@x.com" "pw123"))
                  ana_db).1).
Proof.
  split; [|split].
  - apply (has_field_here _ _ (VStr "salt$pw123")). reflexivity.
  - eexists. reflexivity.
  - apply (responses_without_password_hash demo_hash demo_verify
             (Login (LoginPayload.make "ana@x.com" "pw123")) ana_db).
    exact ana_db_reachable.
Defined.

(** ** Stored requests *)

(** C8.  In every database the service can reach, each stored request has
    status "sent".  Whatever the call, the stored requests are still
    there afterwards, unchanged and in order, with at most new ones after
    them.  A submission answers with status "ok" while the one document it
    adds has status "sent". *)
Theorem requests_persist_as_sent (pwd_context_hash : string -> string -> string)
  (pwd_context_verify : string -> value -> option bool) (r : request) (db : database) :
  reachable pwd_context_hash pwd_context_verify db ->
  (forall d, d ∈ coll db "requestitem" -> fields d !! "status" = Some (VStr "sent"))
  /\ (exists new,
        coll (handle pwd_context_hash pwd_context_verify r db).2 "requestitem"
        = (coll db "requestitem" ++ new)%list)
  /\ (is_submission r = true ->
      exists body d,
        (handle pwd_context_hash pwd_context_verify r db).1 = Ok (JSON body)
        /\ body !! "status" = Some (VStr "ok")
        /\ coll (handle pwd_context_hash pwd_context_verify r db).2 "requestitem"
           = (coll db "requestitem" ++ [d])%list
        /\ fields d !! "status" = Some (VStr "sent")).
Proof.
  intros H. split; [|split].
  - intros d Hd. destruct (reachable_requests_ok _ _ _ H d Hd) as (it & (Hs & _) & E).
    rewrite E, RequestItem_model_dump_status, Hs. reflexivity.
  - destruct (handle_requestitem pwd_context_hash pwd_context_verify r db) as (new & E & _).
    exists new. exact E.
  - intros Hr. apply item_of_is_submission in Hr as [it Hit].
    destruct (handle_submission pwd_context_hash pwd_context_verify r it db Hit)
      as (body & -> & Hok & _).
    destruct (item_of_submitted r it Hit) as (Hs & _).
    exists body. eexists. split; [reflexivity|]. split; [exact Hok|]. cbn [snd].
    split; [apply coll_create_document_same|].
    cbn [fields]. rewrite RequestItem_model_dump_status, Hs. reflexivity.
Qed.

Lemma requests_persist_as_sent_witness :
  hi_doc ∈ coll hi_db "requestitem"
  /\ (forall d, d ∈ coll hi_db "requestitem" -> fields d !! "status" = Some (VStr "sent"))
  /\ (exists new,
        coll (handle demo_hash demo_verify (SendVoice ana_id (Some "memo.ogg") []) hi_db).2
             "requestitem"
        = (coll hi_db "requestitem" ++ new)%list)
  /\ (is_submission (SendVoice ana_id (Some "memo.ogg") []) = true ->
      exists body d,
        (handle demo_hash demo_verify (SendVoice ana_id (Some "memo.ogg") []) hi_db).1
        = Ok (JSON body)
        /\ body !! "status" = Some (VStr "ok")
        /\ coll (handle demo_hash demo_verify (SendVoice ana_id (Some "memo.ogg") []) hi_db).2
                "requestitem"
           = (coll hi_db "requestitem" ++ [d])%list
        /\ fields d !! "status" = Some (VStr "sent")).
Proof.
  split.
  - change (coll hi_db "requestitem") with [hi_doc]. left.
  - apply (requests_persist_as_sent demo_hash demo_verify
             (SendVoice ana_id (Some "memo.ogg") []) hi_db).
    exact hi_db_reachable.
Defined.

(** ** What validation asks of [type] and of [name] *)

Lemma RequestItem_validate_type (kw : dict) (item : RequestItem.t) :
  RequestItem.validate kw = Some item ->
  kw !! "type" = Some (VStr (RequestItem.type item)).
Proof.
  unfold RequestItem.validate. intros H.
  destruct (str_field (kw !! "user_id")); [|discriminate]. cbn in H.
  destruct (kw !! "type") as [[]|]; try discriminate. cbn in H.
  repeat (match type of H with
          | context [?f (kw !! ?k)] =>
              destruct (f (kw !! k)); cbn in H; [|discriminate]
          end).
  injection H as <-. reflexivity.
Qed.

(** The keywords [user_id] and [type] alone, with any two texts, pass. *)
Lemma RequestItem_validate_any_type (u ty : string) :
  RequestItem.validate (list_to_map [("user_id", VStr u); ("type", VStr ty)])
  = Some (RequestItem.init u ty).
Proof. reflexivity. Qed.

(** The [type] check as it stands: a record is accepted with an unlisted
    label. *)
Lemma RequestItem_accepts_unlisted_type :
  exists item,
    RequestItem.validate (list_to_map [("user_id", VStr ana_id); ("type", VStr "banana")])
    = Some item
    /\ RequestItem.type item = "banana"
    /\ ~ In (RequestItem.type item) RequestItem.labels.
Proof.
  exists (RequestItem.init ana_id "banana"). split; [reflexivity|]. split; [reflexivity|].
  cbn. intros H. repeat (destruct H as [H | H]; [discriminate|]). exact H.
Qed.

(** C4, amended.  Validation of a [RequestItem] asks of [type] only that
    it be text: an accepted record carries the text its keywords gave,
    and any text at all is accepted.  The records that reach the store,
    which the five submissions build, pass validation and carry one of
    the five listed labels. *)
Theorem RequestItem_type_checked_as_text
  (pwd_context_hash : string -> string -> string)
  (pwd_context_verify : string -> value -> option bool)
  (kw : dict) (item : RequestItem.t) (db : database) :
  RequestItem.validate kw = Some item ->
  reachable pwd_context_hash pwd_context_verify db ->
  kw !! "type" = Some (VStr (RequestItem.type item))
  /\ (forall u ty,
        RequestItem.validate (list_to_map [("user_id", VStr u); ("type", VStr ty)])
        = Some (RequestItem.init u ty))
  /\ (forall d, d ∈ coll db "requestitem" ->
      exists stored,
        RequestItem.validate (fields d) = Some stored
        /\ fields d !! "type" = Some (VStr (RequestItem.type stored))
        /\ In (RequestItem.type stored) RequestItem.labels).
Proof.
  intros Hv Hr. split; [apply RequestItem_validate_type; assumption|].
  split; [apply RequestItem_validate_any_type|].
  intros d Hd. destruct (reachable_requests_ok _ _ _ Hr d Hd) as (it & (_ & Hl & _) & E).
  exists it. rewrite E. split; [apply RequestItem_validate_model_dump|].
  split; [apply RequestItem_model_dump_type | exact Hl].
Qed.

Lemma RequestItem_type_checked_as_text_witness :
  hi_doc ∈ coll hi_db "requestitem"
  /\ (list_to_map [("user_id", VStr ana_id); ("type", VStr "banana")] : dict) !! "type"
     = Some (VStr (RequestItem.type (RequestItem.init ana_id "banana")))
  /\ (forall u ty,
        RequestItem.validate (list_to_map [("user_id", VStr u); ("type", VStr ty)])
        = Some (RequestItem.init u ty))
  /\ (forall d, d ∈ coll hi_db "requestitem" ->
      exists stored,
        RequestItem.validate (fields d) = Some stored
        /\ fields d !! "type" = Some (VStr (RequestItem.type stored))
        /\ In (RequestItem.type stored) RequestItem.labels).
Proof.
  split.
  - change (coll hi_db "requestitem") with [hi_doc]. left.
  - apply (RequestItem_type_checked_as_text demo_hash demo_verify
             (list_to_map [("user_id", VStr ana_id); ("type", VStr "banana")])
             (RequestItem.init ana_id "banana") hi_db).
    + reflexivity.
    + exact hi_db_reachable.
Defined.



(** With an address nobody holds, [signup] stores the dump of the new
    [User] and answers with its key. *)
Lemma signup_fresh_email (h : string -> string -> string) (p : SignupPayload.t)
  (salt : string) (db : database) :
  (forall d, d ∈ coll db "user" ->
             fields d !! "email" <> Some (VStr (SignupPayload.email p))) ->
  signup h p salt db
  = (Ok (list_to_map [("id", VStr (str_oid (Oid (be_bytes 12 (next_key db)))));
                      ("email", VStr (SignupPayload.email p));
                      ("name", VStr (SignupPayload.name p))]),
     (create_document "user"
        (User.model_dump (User.make (SignupPayload.name p) (SignupPayload.email p)
                                    (h salt (SignupPayload.password p)) None)) db).2).
Proof.
  intros H. unfold signup.
  destruct (find_one db "user" (ByField "email" (SignupPayload.email p))) as [u|] eqn:E;
    [|reflexivity].
  apply find_one_elem_of in E as [Hin Hm]. apply matches_email in Hm.
  destruct (H u Hin Hm).
Qed.




(** * Further properties of the handlers *)

(** ** First matches *)

Lemma first_match_split (q : query) (c : list document) (u : document) :
  head (filter (fun d => matches q d = true) c) = Some u ->
  exists l1 l2,
    c = (l1 ++ u :: l2)%list
    /\ Forall (fun d => matches q d = false) l1
    /\ matches q u = true.
Proof.
  induction c as [|x c IH]; [discriminate|].
  rewrite filter_cons. destruct (decide (matches q x = true)) as [E|E].
  - cbn. intros [= ->]. exists [], c. repeat split; [constructor | assumption].
  - intros H. destruct (IH H) as (l1 & l2 & -> & Hl & Hu).
    exists (x :: l1), l2. repeat split; [|assumption].
    constructor; [destruct (matches q x); congruence | assumption].
Qed.

Lemma first_match_found (q : query) (l1 l2 : list document) (u : document) :
  Forall (fun d => matches q d = false) l1 ->
  matches q u = true ->
  head (filter (fun d => matches q d = true) (l1 ++ u :: l2)%list) = Some u.
Proof.
  induction 1 as [|x l1 Hx _ IH]; intros Hu; cbn [app].
  - rewrite filter_cons. destruct (decide _); [reflexivity | contradiction].
  - rewrite filter_cons. destruct (decide _) as [E|_]; [congruence | auto].
Qed.

Lemma find_one_split (db : database) (name : string) (q : query) (u : document) :
  find_one db name q = Some u ->
  exists l1 l2,
    coll db name = (l1 ++ u :: l2)%list
    /\ Forall (fun d => matches q d = false) l1
    /\ matches q u = true.
Proof. apply first_match_split. Qed.

Lemma set_first_split (q : query) (upd : dict) (l1 l2 : list document) (u : document) :
  Forall (fun d => matches q d = false) l1 ->
  matches q u = true ->
  set_first q upd (l1 ++ u :: l2)%list
  = (l1 ++ Document (_id u) (upd ∪ fields u) :: l2)%list.
Proof.
  induction 1 as [|x l1 Hx _ IH]; intros Hu; cbn [app set_first].
  - rewrite Hu. reflexivity.
  - rewrite Hx, IH by assumption. reflexivity.
Qed.

Lemma set_first_no_match (q : query) (upd : dict) (c : list document) :
  (forall d, d ∈ c -> matches q d = false) -> set_first q upd c = c.
Proof.
  induction c as [|x c IH]; intros H; [reflexivity|]. cbn.
  rewrite (H x) by left. rewrite IH; [reflexivity|].
  intros d Hd. apply H. right. assumption.
Qed.

Lemma set_coll_same (db : database) (name : string) (c : list document) :
  collections db !! name = Some c -> set_coll db name c = db.
Proof.
  intros H. destruct db as [cs k]. unfold set_coll. cbn in *.
  rewrite insert_id by assumption. reflexivity.
Qed.

Lemma coll_Some (db : database) (name : string) (c : list document) :
  collections db !! name = Some c -> coll db name = c.
Proof. intros H. unfold coll. rewrite H. reflexivity. Qed.

(** A write that matches nothing leaves the database as it was. *)
Lemma update_one_no_match (db : database) (name : string) (q : query) (upd : dict) :
  (forall d, d ∈ coll db name -> matches q d = false) ->
  update_one db name q upd = db.
Proof.
  intros H. unfold update_one. destruct (collections db !! name) as [c|] eqn:E; [|reflexivity].
  rewrite (coll_Some _ _ _ E) in H. rewrite set_first_no_match by assumption.
  apply set_coll_same. assumption.
Qed.

Lemma set_first_by_id_twice (o : oid) (upd : dict) (c : list document) :
  set_first (ById o) upd (set_first (ById o) upd c) = set_first (ById o) upd c.
Proof.
  induction c as [|x c IH]; [reflexivity|]. cbn [set_first].
  destruct (matches (ById o) x) eqn:E.
  - cbn [set_first]. cbn [matches _id] in *. rewrite E. cbn [_id fields].
    rewrite (assoc_L (∪)), (idemp_L (∪)). reflexivity.
  - cbn [set_first]. rewrite E, IH. reflexivity.
Qed.

Lemma update_one_by_id_twice (db : database) (name : string) (o : oid) (upd : dict) :
  update_one (update_one db name (ById o) upd) name (ById o) upd
  = update_one db name (ById o) upd.
Proof.
  unfold update_one at 2 3. destruct (collections db !! name) as [c|] eqn:E.
  - unfold update_one, set_coll. cbn [collections next_key].
    rewrite lookup_insert_eq, set_first_by_id_twice, insert_insert_eq. reflexivity.
  - unfold update_one. rewrite E. reflexivity.
Qed.

(** ** The fields a profile update writes *)

Lemma update_fields_name (p : ProfileUpdate.t) :
  update_fields p !! "name" = VStr <$> ProfileUpdate.name p.
Proof. destruct p as [[n|] [ph|]]; reflexivity. Qed.

Lemma update_fields_photo_url (p : ProfileUpdate.t) :
  update_fields p !! "photo_url" = VStr <$> ProfileUpdate.photo_url p.
Proof. destruct p as [[n|] [ph|]]; reflexivity. Qed.

Lemma update_fields_other (p : ProfileUpdate.t) (k : string) :
  k <> "name" -> k <> "photo_url" -> update_fields p !! k = None.
Proof.
  intros Hn Hp. destruct (update_fields p !! k) as [v|] eqn:E; [|reflexivity].
  unfold update_fields in E. apply map_lookup_filter_Some in E as [E _].
  unfold ProfileUpdate.model_dump in E. apply elem_of_list_to_map_2 in E.
  apply elem_of_cons in E as [E | E].
  - injection E as -> _. contradiction.
  - apply list_elem_of_singleton in E. injection E as -> _. contradiction.
Qed.

Lemma update_fields_empty (p : ProfileUpdate.t) :
  update_fields p = ∅ <-> ProfileUpdate.name p = None /\ ProfileUpdate.photo_url p = None.
Proof.
  split.
  - intros E. pose proof (update_fields_name p) as Hn.
    pose proof (update_fields_photo_url p) as Hp. rewrite E, lookup_empty in Hn, Hp.
    clear E. destruct (ProfileUpdate.name p); [discriminate Hn|].
    destruct (ProfileUpdate.photo_url p); [discriminate Hp|].
    split; reflexivity.
  - destruct p as [n ph]. cbn [ProfileUpdate.name ProfileUpdate.photo_url].
    intros [-> ->]. reflexivity.
Qed.

Lemma matches_by_id (o : oid) (d : document) : matches (ById o) d = true <-> _id d = o.
Proof. cbn. apply bool_decide_eq_true. Qed.

Lemma no_user_with_key (db : database) (o : oid) :
  (forall d, d ∈ coll db "user" -> _id d <> o) ->
  forall d, d ∈ coll db "user" -> matches (ById o) d = false.
Proof.
  intros H d Hd. destruct (matches (ById o) d) eqn:E; [|reflexivity].
  apply matches_by_id in E. destruct (H d Hd E).
Qed.

(** X3.  A well-formed identifier that no stored user has.  [GET] ends with
    the 404 "User not found".  [PUT] with something to set writes nothing,
    finds nothing and ends with the uncaught [TypeError] of indexing
    [None], where a 404 might be expected; [PUT] with nothing to set
    answers [{updated: false}] without looking the user up.  The database
    is the same after each. *)
Theorem profile_unknown_user (user_id : string) (o : oid) (payload : ProfileUpdate.t)
  (db : database) :
  ObjectId user_id = Some o ->
  (forall d, d ∈ coll db "user" -> _id d <> o) ->
  get_profile user_id db = (HTTPException 404 "User not found", db)
  /\ (update_fields payload <> ∅ ->
      update_profile user_id payload db = (Raised "TypeError", db))
  /\ (update_fields payload = ∅ ->
      update_profile user_id payload db = (Ok {["updated" := VBool false]}, db)).
Proof.
  intros Ho Hno. pose proof (no_user_with_key db o Hno) as Hm.
  assert (F : find_one db "user" (ById o) = None) by (apply find_one_None; exact Hm).
  split; [|split].
  - unfold get_profile. rewrite Ho, F. reflexivity.
  - intros Hne. unfold update_profile. rewrite Ho. fold (update_fields payload).
    destruct (decide (update_fields payload = ∅)); [contradiction|].
    rewrite update_one_no_match by exact Hm. rewrite F. reflexivity.
  - intros He. unfold update_profile. rewrite Ho. fold (update_fields payload).
    destruct (decide (update_fields payload = ∅)); [reflexivity | contradiction].
Qed.

Lemma profile_unknown_user_witness :
  get_profile "00000000000000000000000a" ana_db
  = (HTTPException 404 "User not found", ana_db)
  /\ update_profile "00000000000000000000000a" (ProfileUpdate.make (Some "Bo") None) ana_db
     = (Raised "TypeError", ana_db).
Proof.
  destruct (profile_unknown_user "00000000000000000000000a"
              (Oid [0; 0; 0; 0; 0; 0; 0; 0; 0; 0; 0; 10]%N)
              (ProfileUpdate.make (Some "Bo") None) ana_db) as (G & P & _).
  - reflexivity.
  - intros d Hd. change (coll ana_db "user") with [ana_doc] in Hd.
    apply list_elem_of_singleton in Hd as ->. discriminate.
  - split; [exact G|]. apply P.
    intros E. apply update_fields_empty in E as [E _]. discriminate.
Defined.

(** X4.  A profile update that finds its user and has something to set.
    Exactly one stored user changes, in place: it keeps its key, takes the
    [name] and [photo_url] the payload gives and keeps each of the two the
    payload leaves out, and every other field ([email], [password_hash])
    is as before.  The answer is the profile of the user as now stored,
    and a [GET] of the same identifier right after answers the same. *)
Theorem update_profile_merges (user_id : string) (o : oid) (payload : ProfileUpdate.t)
  (db : database) (user : document) (e : value) :
  ObjectId user_id = Some o ->
  find_one db "user" (ById o) = Some user ->
  fields user !! "email" = Some e ->
  update_fields payload <> ∅ ->
  exists user' l1 l2,
    (update_profile user_id payload db).1 = Ok (profile_body user' e)
    /\ get_profile user_id (update_profile user_id payload db).2
       = (Ok (profile_body user' e), (update_profile user_id payload db).2)
    /\ coll db "user" = (l1 ++ user :: l2)%list
    /\ coll (update_profile user_id payload db).2 "user" = (l1 ++ user' :: l2)%list
    /\ _id user' = _id user
    /\ fields user' !! "name"
       = match ProfileUpdate.name payload with
         | Some n => Some (VStr n)
         | None => fields user !! "name"
         end
    /\ fields user' !! "photo_url"
       = match ProfileUpdate.photo_url payload with
         | Some p => Some (VStr p)
         | None => fields user !! "photo_url"
         end
    /\ (forall k, k <> "name" -> k <> "photo_url" ->
                  fields user' !! k = fields user !! k).
Proof.
  intros Ho Hf He Hne.
  destruct (find_one_split _ _ _ _ Hf) as (l1 & l2 & Hc & Hl1 & Hu).
  set (user' := Document (_id user) (update_fields payload ∪ fields user)).
  set (db' := update_one db "user" (ById o) (update_fields payload)).
  assert (Hc' : coll db' "user" = (l1 ++ user' :: l2)%list).
  { unfold db'. rewrite coll_update_one_same, Hc. apply set_first_split; assumption. }
  assert (Hf' : find_one db' "user" (ById o) = Some user').
  { unfold find_one. rewrite Hc'. apply first_match_found; [assumption|]. exact Hu. }
  assert (Hother : forall k, k <> "name" -> k <> "photo_url" ->
                             fields user' !! k = fields user !! k).
  { intros k Hn Hp. cbn [user' fields]. rewrite lookup_union_r; [reflexivity|].
    apply update_fields_other; assumption. }
  assert (He' : fields user' !! "email" = Some e).
  { rewrite Hother by discriminate. exact He. }
  assert (Hup : update_profile user_id payload db = (Ok (profile_body user' e), db')).
  { unfold update_profile. rewrite Ho. fold (update_fields payload).
    destruct (decide (update_fields payload = ∅)); [contradiction|].
    fold db'. rewrite Hf', He'. reflexivity. }
  exists user', l1, l2. rewrite Hup. cbn [fst snd].
  split; [reflexivity|]. split.
  { unfold get_profile. rewrite Ho, Hf', He'. reflexivity. }
  split; [exact Hc|]. split; [exact Hc'|]. split; [reflexivity|].
  split; [|split; [|exact Hother]]; cbn [user' fields].
  - pose proof (update_fields_name payload) as Hn.
    destruct (ProfileUpdate.name payload) as [n|]; cbn in Hn.
    + apply lookup_union_Some_l. exact Hn.
    + apply lookup_union_r. exact Hn.
  - pose proof (update_fields_photo_url payload) as Hp.
    destruct (ProfileUpdate.photo_url payload) as [p|]; cbn in Hp.
    + apply lookup_union_Some_l. exact Hp.
    + apply lookup_union_r. exact Hp.
Qed.

Lemma update_profile_merges_witness :
  exists user' l1 l2,
    (update_profile ana_id (ProfileUpdate.make None (Some "/ana.png")) ana_db).1
    = Ok (profile_body user' (VStr "ana@x.com"))
    /\ get_profile ana_id
         (update_profile ana_id (ProfileUpdate.make None (Some "/ana.png")) ana_db).2
       = (Ok (profile_body user' (VStr "ana@x.com")),
          (update_profile ana_id (ProfileUpdate.make None (Some "/ana.png")) ana_db).2)
    /\ coll ana_db "user" = (l1 ++ ana_doc :: l2)%list
    /\ coll (update_profile ana_id (ProfileUpdate.make None (Some "/ana.png")) ana_db).2
            "user" = (l1 ++ user' :: l2)%list
    /\ _id user' = _id ana_doc
    /\ fields user' !! "name" = fields ana_doc !! "name"
    /\ fields user' !! "photo_url" = Some (VStr "/ana.png")
    /\ (forall k, k <> "name" -> k <> "photo_url" ->
                  fields user' !! k = fields ana_doc !! k).
Proof.
  apply (update_profile_merges ana_id (Oid (be_bytes 12 0))
           (ProfileUpdate.make None (Some "/ana.png")) ana_db ana_doc (VStr "ana@x.com")).
  - reflexivity.
  - reflexivity.
  - reflexivity.
  - intros E. apply update_fields_empty in E as [_ E]. discriminate.
Defined.

(** X5.  Repeating a profile update changes nothing more: run on the
    database the first call left, the same call gives the same outcome and
    leaves that database as it is.  This holds whatever the identifier,
    the payload and the database. *)
Theorem update_profile_idempotent (user_id : string) (payload : ProfileUpdate.t)
  (db : database) :
  update_profile user_id payload (update_profile user_id payload db).2
  = update_profile user_id payload db.
Proof.
  unfold update_profile. destruct (ObjectId user_id) as [o|]; [|reflexivity].
  fold (update_fields payload).
  destruct (decide (update_fields payload = ∅)) as [E|E]; cbn [snd].
  { destruct (decide (update_fields payload = ∅)); [reflexivity | contradiction]. }
  set (db' := update_one db "user" (ById o) (update_fields payload)).
  assert (Hsnd : (match find_one db' "user" (ById o) with
                  | Some user =>
                      match fields user !! "email" with
                      | Some e' => (Ok (profile_body user e'), db')
                      | None => (Raised "KeyError", db')
                      end
                  | None => (Raised "TypeError", db')
                  end).2 = db').
  { destruct (find_one db' "user" (ById o)); [|reflexivity].
    destruct (_ !! _); reflexivity. }
  rewrite Hsnd. unfold db' at 1 2 3 4. rewrite update_one_by_id_twice. reflexivity.
Qed.

(** ** Errors and the database *)

(** X6.  A call that ends with an [HTTPException] has written nothing: the
    database is the one the call was given.  The status is 400 or 404. *)
Theorem http_error_leaves_db (pwd_context_hash : string -> string -> string)
  (pwd_context_verify : string -> value -> option bool) (r : request) (db : database)
  (status_code : Z) (detail : string) :
  (handle pwd_context_hash pwd_context_verify r db).1 = HTTPException status_code detail ->
  (handle pwd_context_hash pwd_context_verify r db).2 = db
  /\ (status_code = 400 \/ status_code = 404)%Z.
Proof.
  destruct r; cbn [handle].
  - unfold signup. destruct (find_one _ _ _); cbn; [|discriminate].
    intros [= <- _]. auto.
  - unfold login. destruct (find_one _ _ _); cbn; [|intros [= <- _]; auto].
    destruct (pwd_context_verify _ _) as [[]|]; cbn; [|intros [= <- _]; auto|discriminate].
    destruct (_ !! _); cbn; discriminate.
  - unfold get_profile. destruct (ObjectId _); cbn; [|intros [= <- _]; auto].
    destruct (find_one _ _ _); cbn; [|intros [= <- _]; auto].
    destruct (_ !! _); cbn; discriminate.
  - unfold update_profile. destruct (ObjectId _); cbn [lift fst snd]; [|intros [= <- _]; auto].
    destruct (decide _); cbn [lift fst snd]; [discriminate|].
    destruct (find_one _ _ _); cbn [lift fst snd]; [|discriminate].
    destruct (_ !! _); cbn [lift fst snd]; discriminate.
  - cbn. discriminate.
  - cbn. discriminate.
  - cbn. discriminate.
  - cbn. discriminate.
  - cbn. discriminate.
  - cbn. discriminate.
Qed.

Lemma http_error_leaves_db_witness :
  (handle demo_hash demo_verify (Login (LoginPayload.make "ana@x.com" "guess")) ana_db).1
  = HTTPException 400 "Invalid credentials"
  /\ (handle demo_hash demo_verify (Login (LoginPayload.make "ana@x.com" "guess")) ana_db).2
     = ana_db
  /\ (400 = 400 \/ 400 = 404)%Z.
Proof.
  split; [reflexivity|].
  apply (http_error_leaves_db demo_hash demo_verify
           (Login (LoginPayload.make "ana@x.com" "guess")) ana_db 400
           "Invalid credentials").
  reflexivity.
Defined.

(** ** Signing up and logging in *)

(** X2.  A login succeeds only against a stored user: when [login] answers
    with a body, some stored user has the address of the payload, [verify]
    has returned true for the password of the payload and what that user
    holds as [password_hash], and the body is that user's key, address
    and name.  The database is left as it was. *)
Theorem login_sound (pwd_context_verify : string -> value -> option bool)
  (payload : LoginPayload.t) (db db' : database) (body : dict) :
  login pwd_context_verify payload db = (Ok body, db') ->
  db' = db
  /\ exists user,
       user ∈ coll db "user"
       /\ fields user !! "email" = Some (VStr (LoginPayload.email payload))
       /\ pwd_context_verify (LoginPayload.password payload)
            (get_default (fields user) "password_hash" (VStr "")) = Some true
       /\ body = list_to_map [("id", VStr (str_oid (_id user)));
                              ("email", VStr (LoginPayload.email payload));
                              ("name", get (fields user) "name")].
Proof.
  unfold login.
  destruct (find_one db "user" _) as [u|] eqn:E; [|discriminate].
  apply find_one_elem_of in E as [Hin Hm]. apply matches_email in Hm.
  destruct (pwd_context_verify _ _) as [[]|] eqn:V; try discriminate.
  rewrite Hm. intros [= <- <-]. split; [reflexivity|].
  exists u. repeat split; assumption.
Qed.

Lemma login_sound_witness :
  ana_db = ana_db
  /\ exists user,
       user ∈ coll ana_db "user"
       /\ fields user !! "email" = Some (VStr "ana@x.com")
       /\ demo_verify "pw123" (get_default (fields user) "password_hash" (VStr ""))
          = Some true
       /\ (list_to_map [("id", VStr ana_id); ("email", VStr "ana@x.com");
                        ("name", VStr "Ana")] : dict)
          = list_to_map [("id", VStr (str_oid (_id user)));
                         ("email", VStr "ana@x.com");
                         ("name", get (fields user) "name")].
Proof.
  apply (login_sound demo_verify (LoginPayload.make "ana@x.com" "pw123") ana_db ana_db
           (list_to_map [("id", VStr ana_id); ("email", VStr "ana@x.com");
                         ("name", VStr "Ana")])).
  reflexivity.
Defined.

(** X1.  Signing up and then logging in.  When no stored user holds the
    address and [verify] accepts the password against the digest [hash]
    made of it, the signup succeeds and a login with the same address
    and password on the database it left succeeds too, with the very body
    the signup answered: the same key, address and name. *)
Theorem signup_then_login (pwd_context_hash : string -> string -> string)
  (pwd_context_verify : string -> value -> option bool)
  (payload : SignupPayload.t) (salt : string) (db : database) :
  (forall d, d ∈ coll db "user" ->
             fields d !! "email" <> Some (VStr (SignupPayload.email payload))) ->
  pwd_context_verify (SignupPayload.password payload)
    (VStr (pwd_context_hash salt (SignupPayload.password payload))) = Some true ->
  exists body,
    (signup pwd_context_hash payload salt db).1 = Ok body
    /\ login pwd_context_verify
         (LoginPayload.make (SignupPayload.email payload) (SignupPayload.password payload))
         (signup pwd_context_hash payload salt db).2
       = (Ok body, (signup pwd_context_hash payload salt db).2).
Proof.
  intros Hfresh Hv. rewrite (signup_fresh_email _ _ _ _ Hfresh). cbn [fst snd].
  eexists. split; [reflexivity|].
  set (user := Document (Oid (be_bytes 12 (next_key db)))
                 (User.model_dump
                    (User.make (SignupPayload.name payload) (SignupPayload.email payload)
                       (pwd_context_hash salt (SignupPayload.password payload)) None))).
  set (db1 := (create_document "user" _ db).2).
  assert (F : find_one db1 "user" (ByField "email" (SignupPayload.email payload))
              = Some user).
  { unfold find_one, db1. rewrite coll_create_document_same.
    apply first_match_found.
    - apply Forall_forall. intros d Hd.
      destruct (matches _ d) eqn:E; [|reflexivity].
      apply matches_email in E. destruct (Hfresh d Hd E).
    - apply matches_email. reflexivity. }
  unfold login. cbn [LoginPayload.email LoginPayload.password]. rewrite F.
  change (get_default (fields user) "password_hash" (VStr ""))
    with (VStr (pwd_context_hash salt (SignupPayload.password payload))).
  rewrite Hv. reflexivity.
Qed.

Lemma signup_then_login_witness :
  exists body,
    (signup demo_hash ana "salt" empty_db).1 = Ok body
    /\ login demo_verify (LoginPayload.make "ana@x.com" "pw123")
         (signup demo_hash ana "salt" empty_db).2
       = (Ok body, (signup demo_hash ana "salt" empty_db).2).
Proof.
  apply (signup_then_login demo_hash demo_verify ana "salt" empty_db).
  - intros d Hd. inversion Hd.
  - reflexivity.
Defined.

(** ** The stored users *)

Lemma signup_db_fresh (h : string -> string -> string) (p : SignupPayload.t) (salt : string)
  (db : database) :
  (signup h p salt db).2 = db
  \/ ((forall d, d ∈ coll db "user" ->
                 fields d !! "email" <> Some (VStr (SignupPayload.email p)))
      /\ (signup h p salt db).2
         = (create_document "user"
              (User.model_dump (User.make (SignupPayload.name p) (SignupPayload.email p)
                                          (h salt (SignupPayload.password p)) None)) db).2).
Proof.
  unfold signup. destruct (find_one _ _ _) eqn:E; [left; reflexivity | right].
  split; [|reflexivity]. rewrite find_one_None in E.
  intros d Hd He. apply matches_email in He. rewrite (E d Hd) in He. discriminate.
Qed.

Lemma User_model_dump_ok (o : oid) (u : User.t) : user_doc_ok (Document o (User.model_dump u)).
Proof.
  exists (User.name u), (User.email u), (User.password_hash u).
  repeat split; reflexivity.
Qed.

Lemma updated_user_doc_ok (p : ProfileUpdate.t) (d : document) :
  user_doc_ok d -> user_doc_ok (Document (_id d) (update_fields p ∪ fields d)).
Proof.
  intros (n & e & h & Hn & He & Hh). unfold user_doc_ok. cbn [fields].
  pose proof (update_fields_name p) as Hu.
  destruct (ProfileUpdate.name p) as [n'|]; cbn in Hu.
  - exists n', e, h. split; [apply lookup_union_Some_l; exact Hu|].
    split; (rewrite lookup_union_r; [assumption | apply update_fields_other; discriminate]).
  - exists n, e, h. split; [rewrite lookup_union_r; assumption|].
    split; (rewrite lookup_union_r; [assumption | apply update_fields_other; discriminate]).
Qed.

Lemma set_first_user_doc_ok (q : query) (p : ProfileUpdate.t) (c : list document) :
  Forall user_doc_ok c -> Forall user_doc_ok (set_first q (update_fields p) c).
Proof.
  induction 1 as [|x c Hx Hc IH]; [constructor|]. cbn [set_first].
  destruct (matches q x); constructor; auto. apply updated_user_doc_ok. assumption.
Qed.

Lemma set_first_emails (q : query) (p : ProfileUpdate.t) (c : list document) :
  (fun d => fields d !! "email") <$> set_first q (update_fields p) c
  = (fun d => fields d !! "email") <$> c.
Proof.
  induction c as [|x c IH]; [reflexivity|]. cbn [set_first].
  destruct (matches q x); cbn [fmap list_fmap fields].
  - rewrite lookup_union_r by (apply update_fields_other; discriminate). reflexivity.
  - fold (fmap (M := list) (fun d => fields d !! "email")). f_equal. exact IH.
Qed.

Lemma users_wf_update_one (db : database) (o : oid) (p : ProfileUpdate.t) :
  users_wf db -> users_wf (update_one db "user" (ById o) (update_fields p)).
Proof.
  intros [Hok Hnd]. unfold users_wf, emails. rewrite coll_update_one_same.
  split; [apply set_first_user_doc_ok; assumption|].
  rewrite set_first_emails. exact Hnd.
Qed.

Lemma handle_users_wf (h : string -> string -> string)
  (v : string -> value -> option bool) (r : request) (db : database) :
  users_wf db -> users_wf (handle h v r db).2.
Proof.
  intros Hdb. destruct (item_of r) as [item|] eqn:E.
  { destruct (handle_submission h v r item db E) as (body & -> & _).
    unfold users_wf, emails. cbn [snd].
    rewrite coll_create_document_other by discriminate. exact Hdb. }
  destruct r; cbn [item_of handle] in *; try discriminate; rewrite lift_db.
  - destruct (signup_db_fresh h payload salt db) as [-> | [Hfresh ->]]; [exact Hdb|].
    destruct Hdb as [Hok Hnd]. unfold users_wf, emails.
    rewrite coll_create_document_same. split.
    + apply Forall_app. split; [assumption|].
      constructor; [apply User_model_dump_ok | constructor].
    + rewrite fmap_app. apply NoDup_app. split; [exact Hnd|]. split.
      * intros x Hx Hx'. apply list_elem_of_fmap in Hx as (d & -> & Hd).
        apply list_elem_of_singleton in Hx'. cbn in Hx'.
        apply (Hfresh d Hd). exact Hx'.
      * apply NoDup_singleton.
  - rewrite login_db. exact Hdb.
  - rewrite get_profile_db. exact Hdb.
  - destruct (update_profile_db user_id payload db) as [-> | [o ->]]; [exact Hdb|].
    apply users_wf_update_one. exact Hdb.
  - exact Hdb.
Qed.

Lemma reachable_users_wf (h : string -> string -> string)
  (v : string -> value -> option bool) (db : database) :
  reachable h v db -> users_wf db.
Proof.
  induction 1 as [|r db _ IH].
  - split; [constructor | apply NoDup_nil; constructor].
  - apply handle_users_wf. assumption.
Qed.

(** X7.  In every database the service can reach, each stored user has a
    text [name], [email] and [password_hash], and no two stored users have
    the same [email]: the check [signup] makes before it inserts, and the
    fields [update_profile] is able to write, keep it so. *)
Theorem reachable_users_distinct (pwd_context_hash : string -> string -> string)
  (pwd_context_verify : string -> value -> option bool) (db : database) :
  reachable pwd_context_hash pwd_context_verify db ->
  (forall d, d ∈ coll db "user" -> user_doc_ok d)
  /\ (forall i j d1 d2,
        coll db "user" !! i = Some d1 -> coll db "user" !! j = Some d2 ->
        fields d1 !! "email" = fields d2 !! "email" -> i = j).
Proof.
  intros H. destruct (reachable_users_wf _ _ _ H) as [Hok Hnd]. split.
  - apply Forall_forall. exact Hok.
  - intros i j d1 d2 H1 H2 He. unfold emails in Hnd.
    apply (proj1 (NoDup_alt _) Hnd i j (fields d1 !! "email")).
    + rewrite list_lookup_fmap, H1. reflexivity.
    + rewrite list_lookup_fmap, H2, He. reflexivity.
Qed.

Lemma reachable_users_distinct_witness :
  ana_doc ∈ coll hi_db "user"
  /\ (forall d, d ∈ coll hi_db "user" -> user_doc_ok d)
  /\ (forall i j d1 d2,
        coll hi_db "user" !! i = Some d1 -> coll hi_db "user" !! j = Some d2 ->
        fields d1 !! "email" = fields d2 !! "email" -> i = j).
Proof.
  split.
  - change (coll hi_db "user") with [ana_doc]. left.
  - apply (reachable_users_distinct demo_hash demo_verify hi_db). exact hi_db_reachable.
Defined.



(** ** Uploads and the listing *)

(** X9.  An upload is measured, not kept: what [send_photo] and
    [send_voice] answer and store depends on the bytes of the file through
    their number only.  The stored document holds that number under
    [meta.size] and the path the answer gives. *)
Theorem upload_content_by_length (user_id : string) (filename : option string)
  (c1 c2 : list Byte.byte) (db : database) :
  length c1 = length c2 ->
  send_photo user_id filename c1 db = send_photo user_id filename c2 db
  /\ send_voice user_id filename c1 db = send_voice user_id filename c2 db
  /\ exists body d,
       send_photo user_id filename c1 db = (Ok body, (send_photo user_id filename c1 db).2)
       /\ coll (send_photo user_id filename c1 db).2 "requestitem"
          = (coll db "requestitem" ++ [d])%list
       /\ body !! "photo_url" = Some (VStr (upload_path filename))
       /\ fields d !! "photo_url" = Some (VStr (upload_path filename))
       /\ fields d !! "meta" = Some (VDict {["size" := VInt (Z.of_nat (length c2))]}).
Proof.
  intros H. unfold send_photo, send_voice. rewrite H.
  split; [reflexivity|]. split; [reflexivity|].
  eexists. eexists. split; [reflexivity|]. cbn [snd].
  split; [apply coll_create_document_same|].
  repeat split; reflexivity.
Qed.

Lemma upload_content_by_length_witness :
  send_photo ana_id None [Byte.x61; Byte.x62] ana_db
  = send_photo ana_id None [Byte.x79; Byte.x7a] ana_db
  /\ send_voice ana_id None [Byte.x61; Byte.x62] ana_db
     = send_voice ana_id None [Byte.x79; Byte.x7a] ana_db
  /\ exists body d,
       send_photo ana_id None [Byte.x61; Byte.x62] ana_db
       = (Ok body, (send_photo ana_id None [Byte.x61; Byte.x62] ana_db).2)
       /\ coll (send_photo ana_id None [Byte.x61; Byte.x62] ana_db).2 "requestitem"
          = (coll ana_db "requestitem" ++ [d])%list
       /\ body !! "photo_url" = Some (VStr "/uploads/None")
       /\ fields d !! "photo_url" = Some (VStr "/uploads/None")
       /\ fields d !! "meta" = Some (VDict {["size" := VInt 2]}).
Proof.
  apply (upload_content_by_length ana_id None [Byte.x61; Byte.x62] [Byte.x79; Byte.x7a]
           ana_db).
  reflexivity.
Defined.

Lemma pop_id_lookup (d : document) :
  pop_id d !! "_id" = None
  /\ pop_id d !! "id" = Some (VStr (str_oid (_id d)))
  /\ forall k, k <> "id" -> k <> "_id" -> pop_id d !! k = fields d !! k.
Proof.
  unfold pop_id, as_dict. split; [|split].
  - rewrite lookup_insert_ne by discriminate. apply lookup_delete_eq.
  - apply lookup_insert_eq.
  - intros k H1 H2. rewrite lookup_insert_ne by congruence.
    rewrite lookup_delete_ne by congruence. apply lookup_insert_ne. congruence.
Qed.


Lemma matches_user_id (d : document) (u : string) :
  matches (ByField "user_id" u) d = true <-> fields d !! "user_id" = Some (VStr u).
Proof.
  cbn. destruct (fields d !! "user_id") as [[]|]; split; try discriminate.
  - intros H. apply String.eqb_eq in H. congruence.
  - intros [= ->]. apply String.eqb_refl.
Qed.

(** X10.  The listing answers with one record per stored request it
    selected, in the order of the store, and leaves the database alone.
    Each record comes from a stored request whose [user_id] is the one
    asked for; its [_id] is gone, its [id] is the key of that request as
    text, and every other field is the stored one. *)
Theorem list_requests_records (user_id : string) (db : database) :
  exists docs,
    list_requests user_id db = (Ok (pop_id <$> docs), db)
    /\ docs = take 100 (requests_of user_id db)
    /\ Forall (fun d =>
                 d ∈ coll db "requestitem"
                 /\ fields d !! "user_id" = Some (VStr user_id)
                 /\ pop_id d !! "_id" = None
                 /\ pop_id d !! "id" = Some (VStr (str_oid (_id d)))
                 /\ forall k, k <> "id" -> k <> "_id" -> pop_id d !! k = fields d !! k)
              docs.
Proof.
  eexists. split; [reflexivity|]. split; [reflexivity|].
  apply Forall_forall. intros d Hd. apply subseteq_take in Hd.
  apply list_elem_of_filter in Hd as [Hm Hd]. apply matches_user_id in Hm.
  split; [assumption|]. split; [assumption|]. apply pop_id_lookup.
Qed.






(** ** The schemas *)

Lemma User_validate_model_dump (EmailStr : string -> option string) (u : User.t) :
  EmailStr (User.email u) = Some (User.email u) ->
  User.validate EmailStr (User.model_dump u) = Some u.
Proof.
  destruct u as [n e h ph]. cbn [User.email]. intros H. unfold User.validate.
  change (User.model_dump (User.make n e h ph) !! "name") with (Some (VStr n)).
  change (User.model_dump (User.make n e h ph) !! "email") with (Some (VStr e)).
  change (User.model_dump (User.make n e h ph) !! "password_hash") with (Some (VStr h)).
  change (User.model_dump (User.make n e h ph) !! "photo_url") with (Some (of_opt_str ph)).
  cbn [str_field mbind option_bind]. rewrite H. cbn [mbind option_bind].
  destruct ph; reflexivity.
Qed.

Lemma ProfileUpdate_validate_model_dump (p : ProfileUpdate.t) :
  ProfileUpdate.validate (ProfileUpdate.model_dump p) = Some p.
Proof. destruct p as [[n|] [ph|]]; reflexivity. Qed.

(** X13.  Every schema takes back its own dump: validating what
    [model_dump] gives of a [RequestItem], a [Location] or a
    [ProfileUpdate] yields the record itself, and so for a [User] whose
    address the address check leaves as it is.  Nothing a handler stores
    is a document its schema would refuse. *)
Theorem schemas_round_trip (EmailStr : string -> option string) (u : User.t)
  (r : RequestItem.t) (l : Location.t) (p : ProfileUpdate.t) :
  EmailStr (User.email u) = Some (User.email u) ->
  User.validate EmailStr (User.model_dump u) = Some u
  /\ RequestItem.validate (RequestItem.model_dump r) = Some r
  /\ Location.validate (Location.model_dump l) = Some l
  /\ ProfileUpdate.validate (ProfileUpdate.model_dump p) = Some p.
Proof.
  intros H. split; [apply User_validate_model_dump; exact H|].
  split; [apply RequestItem_validate_model_dump|].
  split; [apply Location_validate_model_dump | apply ProfileUpdate_validate_model_dump].
Qed.

Lemma schemas_round_trip_witness :
  User.validate demo_email
    (User.model_dump (User.make "Ana" "ana@x.com" "salt$pw123" None))
  = Some (User.make "Ana" "ana@x.com" "salt$pw123" None)
  /\ RequestItem.validate
       (RequestItem.model_dump (RequestItem.with_text "hi" (RequestItem.init ana_id "text")))
     = Some (RequestItem.with_text "hi" (RequestItem.init ana_id "text"))
  /\ Location.validate (Location.model_dump (Location.make 1.5 (-2.25)))
     = Some (Location.make 1.5 (-2.25))
  /\ ProfileUpdate.validate (ProfileUpdate.model_dump (ProfileUpdate.make (Some "Ana") None))
     = Some (ProfileUpdate.make (Some "Ana") None).
Proof.
  apply (schemas_round_trip demo_email (User.make "Ana" "ana@x.com" "salt$pw123" None)
           (RequestItem.with_text "hi" (RequestItem.init ana_id "text"))
           (Location.make 1.5 (-2.25)) (ProfileUpdate.make (Some "Ana") None)).
  reflexivity.
Defined.

(** X14.  The status "sent" is a default and no more.  An accepted
    [RequestItem] carries the [user_id] its keywords gave; its [status] is
    "sent" when the keywords give none, and otherwise whatever text they
    give, which validation accepts as it is: only the handlers, which never
    pass a status, make every stored request "sent". *)
Theorem RequestItem_status_is_a_default (kw : dict) (item : RequestItem.t) :
  RequestItem.validate kw = Some item ->
  kw !! "user_id" = Some (VStr (RequestItem.user_id item))
  /\ ((kw !! "status" = None /\ RequestItem.status item = "sent")
      \/ kw !! "status" = Some (VStr (RequestItem.status item)))
  /\ (forall u ty s,
        RequestItem.validate
          (list_to_map [("user_id", VStr u); ("type", VStr ty); ("status", VStr s)])
        = Some (RequestItem.make u ty None None None None None None s None)).
Proof.
  unfold RequestItem.validate. intros H.
  destruct (kw !! "user_id") as [[]|]; try discriminate H. cbn in H.
  repeat (match type of H with
          | context [?f (kw !! ?k)] =>
              lazymatch k with
              | "status" => fail
              | _ => destruct (f (kw !! k)); cbn in H; [|discriminate H]
              end
          end).
  destruct (kw !! "status") as [[]|]; try discriminate H; cbn in H;
    (destruct (RequestItem.meta_field (kw !! "meta")); cbn in H; [|discriminate H]);
    injection H as <-; cbn [RequestItem.user_id RequestItem.status];
    (split; [reflexivity|]); (split; [auto | intros u ty s'; reflexivity]).
Qed.

Lemma RequestItem_status_is_a_default_witness :
  (list_to_map [("user_id", VStr ana_id); ("type", VStr "text"); ("status", VStr "read")]
   : dict) !! "user_id" = Some (VStr ana_id)
  /\ (((list_to_map [("user_id", VStr ana_id); ("type", VStr "text");
                     ("status", VStr "read")] : dict) !! "status" = None
       /\ "read" = "sent")
      \/ (list_to_map [("user_id", VStr ana_id); ("type", VStr "text");
                       ("status", VStr "read")] : dict) !! "status" = Some (VStr "read"))
  /\ (forall u ty s,
        RequestItem.validate
          (list_to_map [("user_id", VStr u); ("type", VStr ty); ("status", VStr s)])
        = Some (RequestItem.make u ty None None None None None None s None)).
Proof.
  apply (RequestItem_status_is_a_default
           (list_to_map [("user_id", VStr ana_id); ("type", VStr "text");
                         ("status", VStr "read")])
           (RequestItem.make ana_id "text" None None None None None None "read" None)).
  reflexivity.
Defined.
